(** * dsRAG semantic sectioning and chunking: a shallow embedding

    The development follows [dsrag/semantic_chunking/semantic_chunking.py]
    and the unit tests in [tests/unit/test_semantic_sectioning.py].
    Python integers are [Z]; strings are [string] (one [ascii] per
    character); a Python list is a [list]; an exception is the [Raise]
    branch of [result]. *)

From Stdlib Require Import ZArith List String Ascii Bool Lia DecimalString.
From Stdlib Require Import Sorted.
Import ListNotations.
Local Open Scope string_scope.
Local Open Scope Z_scope.

(** ** Python primitives used by the module *)

Module Py.

Inductive exn : Type :=
| IndexError
| UnboundLocalError
| ZeroDivisionError
| ValueError.

Inductive result (A : Type) : Type :=
| Ok (a : A)
| Raise (e : exn).
Arguments Ok {A} a.
Arguments Raise {A} e.

Definition bind {A B : Type} (m : result A) (k : A -> result B) : result B :=
  match m with
  | Ok a => k a
  | Raise e => Raise e
  end.

(** [len(l)] *)
Definition len {A : Type} (l : list A) : Z := Z.of_nat (List.length l).

(** [len(s)] on a string *)
Definition slen (s : string) : Z := Z.of_nat (String.length s).

(** [range(lo, hi)]: empty when [hi <= lo]. *)
Definition range (lo hi : Z) : list Z :=
  map (fun k => lo + Z.of_nat k) (seq 0 (Z.to_nat (hi - lo))).

(** [l[i]]: indices [-len(l) .. -1] count from the end, anything
    outside [-len(l) .. len(l)-1] raises IndexError. *)
Definition index {A : Type} (l : list A) (i : Z) : result A :=
  let j := if i <? 0 then i + len l else i in
  if (j <? 0) || (len l <=? j) then Raise IndexError
  else match nth_error l (Z.to_nat j) with
       | Some x => Ok x
       | None => Raise IndexError
       end.

(** Normalisation of one slice bound: a negative bound counts from the
    end, and the result is clamped to [0 .. len(l)]. *)
Definition clamp (n i : Z) : Z :=
  let j := if i <? 0 then i + n else i in
  Z.max 0 (Z.min n j).

(** [l[lo:hi]]: never raises. *)
Definition slice {A : Type} (l : list A) (lo hi : Z) : list A :=
  let lo' := clamp (len l) lo in
  let hi' := clamp (len l) hi in
  firstn (Z.to_nat (hi' - lo')) (skipn (Z.to_nat lo') l).

(** [x // y]: floor division; a zero divisor raises. *)
Definition floordiv (x y : Z) : result Z :=
  if y =? 0 then Raise ZeroDivisionError else Ok (x / y).

(** [str(i)] for an integer, as used by the f-strings. *)
Definition str (i : Z) : string := NilZero.string_of_int (Z.to_int i).

(** [sep.join(parts)] *)
Definition join (sep : string) (parts : list string) : string :=
  String.concat sep parts.

(** [document.split("\n")] *)
Fixpoint split_lines (s : string) : list string :=
  match s with
  | EmptyString => [EmptyString]
  | String c rest =>
      if Ascii.eqb c "010"%char then EmptyString :: split_lines rest
      else match split_lines rest with
           | [] => [String c EmptyString]
           | l :: ls => String c l :: ls
           end
  end.

End Py.
Import Py.

Declare Scope py_scope.
Notation "x <- m ;; k" := (bind m (fun x => k))
  (at level 100, m at next level, right associativity) : py_scope.
Notation "' pat <- m ;; k" := (bind m (fun pat => k))
  (at level 100, pat pattern, m at next level, right associativity) : py_scope.
Local Open Scope py_scope.

Definition nl : string := String "010"%char EmptyString.

(** ** Data model (the pydantic classes and the dictionaries) *)

Record Section_ : Type := mkSection
  { title : string; start_index : Z; end_index : Z }.

Record Chunk : Type := mkChunk { chunk_start_index : Z }.

(** The dictionary with keys "title", "content", "start", "end" built by
    [get_sections_text] and read back by [get_chunks_from_segments]. *)
Record SectionDict : Type := mkSectionDict
  { sd_title : string; sd_content : string; sd_start : Z; sd_end : Z }.

(** The dictionary with keys "title" and "content". *)
Record ChunkDict : Type := mkChunkDict
  { cd_title : string; cd_content : string }.

(** ** Line indexer and window materialisation *)

Definition get_document_lines (document : string) : list string :=
  split_lines document.

(** One line of the numbered window: [f"[{i}] {line}\n"]. *)
Definition numbered (i : Z) (line : string) : string :=
  "[" ++ str i ++ "] " ++ line ++ nl.

(** The [for i in range(start_line, len(document_lines))] loop; falling
    out of the range without the [break] leaves [end_line] unassigned, so
    the [return] raises UnboundLocalError. *)
Fixpoint window_loop (document_lines : list string) (max_characters : Z)
    (idxs : list Z) (document_with_line_numbers : string)
    (character_count : Z) : result (string * Z) :=
  match idxs with
  | [] => Raise UnboundLocalError
  | i :: rest =>
      line <- index document_lines i ;;
      let document_with_line_numbers :=
        document_with_line_numbers ++ numbered i line in
      let character_count := character_count + slen line in
      if (character_count >? max_characters)
         || (i =? len document_lines - 1)
      then Ok (document_with_line_numbers, i)
      else window_loop document_lines max_characters rest
             document_with_line_numbers character_count
  end.

Definition get_document_with_lines (document_lines : list string)
    (start_line max_characters : Z) : result (string * Z) :=
  window_loop document_lines max_characters
    (range start_line (len document_lines)) "" 0.

(** ** Chunk target estimator and fallback decision *)

Definition get_target_num_chunks (text : string) (max_characters : Z)
  : result (Z * Z) :=
  q <- floordiv (slen text) max_characters ;;
  let expected_num_chunks := q + 1 in
  if expected_num_chunks <? 2 then Ok (1, 2)
  else Ok (expected_num_chunks - 1, expected_num_chunks + 1).

Definition check_for_fallback_chunking_usage {A : Type}
    (min_num_chunks max_num_chunks : Z) (chunks : list A) : bool :=
  if (len chunks <? min_num_chunks / 2) || (len chunks >? max_num_chunks * 2)
  then true else false.

(** ** Content materialiser *)

(** [get_sections_text]: the [enumerate] loop, with the successor of the
    current section read as [sections[i+1]]. *)
Fixpoint get_sections_text (sections : list Section_)
    (document_lines : list string) : list SectionDict :=
  match sections with
  | [] => []
  | s :: rest =>
      let end_index :=
        match rest with
        | [] => len document_lines - 1
        | next :: _ => start_index next - 1
        end in
      let contents := slice document_lines (start_index s) end_index in
      mkSectionDict (title s) (join nl contents) (start_index s) end_index
        :: get_sections_text rest document_lines
  end.

(** The loop [for i in range(..): content += f"{document_lines[i]}\n"]. *)
Fixpoint content_loop (document_lines : list string) (idxs : list Z)
    (content : string) : result string :=
  match idxs with
  | [] => Ok content
  | i :: rest =>
      line <- index document_lines i ;;
      content_loop document_lines rest (content ++ line ++ nl)
  end.

Definition get_chunk_content (start_index end_index : Z)
    (document_lines : list string) : result string :=
  content_loop document_lines (range start_index (end_index + 1)) "".

(** The loop that numbers the lines of one segment:
    [document_with_line_numbers += f"[{i}] {document_lines[i]}\n"]. *)
Fixpoint annotate_loop (document_lines : list string) (idxs : list Z)
    (document_with_line_numbers : string) : result string :=
  match idxs with
  | [] => Ok document_with_line_numbers
  | i :: rest =>
      line <- index document_lines i ;;
      annotate_loop document_lines rest
        (document_with_line_numbers ++ numbered i line)
  end.

(** The [enumerate(new_chunks)] loop of the branch that trusts the
    oracle's chunk starts. *)
Fixpoint oracle_chunks_loop (title : string) (document_lines : list string)
    (new_chunks : list Chunk) : result (list ChunkDict) :=
  match new_chunks with
  | [] => Ok []
  | chunk :: rest =>
      let end_index :=
        match rest with
        | [] => len document_lines - 1
        | next :: _ => chunk_start_index next - 1
        end in
      chunk_content <-
        get_chunk_content (chunk_start_index chunk) end_index document_lines ;;
      more <- oracle_chunks_loop title document_lines rest ;;
      Ok (mkChunkDict title chunk_content :: more)
  end.

(** Calls that leave the module; the list of them is a ghost trace kept
    beside the returned chunk list. *)
Inductive call : Type :=
| ChunkOracleCall (document_with_line_numbers : string)
    (start_line min_chunks max_chunks : Z)
| SplitterCall (document_text : string).

Section Chunking.

Variables llm_provider model : string.

(** [get_structured_chunks]: the oracle; it raises ValueError on an
    unknown provider. *)
Variable get_structured_chunks :
  string -> Z -> Z -> Z -> string -> string -> result (list Chunk).

(** [RecursiveCharacterTextSplitter(chunk_size=800, chunk_overlap=0)]
    applied to one text, giving the page contents. *)
Variable split_text : string -> list string.

(** Body of the loop over [segments]: the chunks appended for one
    segment and the external calls made for it. *)
Definition segment_chunks (segment : SectionDict)
    (document_lines : list string) : result (list ChunkDict * list call) :=
  let start_index := sd_start segment in
  let end_index := sd_end segment in
  let title := sd_title segment in
  document_with_line_numbers <-
    annotate_loop document_lines (range start_index (end_index + 1)) "" ;;
  if slen document_with_line_numbers <? 2000 then
    chunk_content <- get_chunk_content start_index end_index document_lines ;;
    Ok ([mkChunkDict title chunk_content], [])
  else
    ' (min_num_chunks, max_num_chunks) <-
      get_target_num_chunks document_with_line_numbers 2000 ;;
    new_chunks <-
      get_structured_chunks document_with_line_numbers start_index
        min_num_chunks max_num_chunks llm_provider model ;;
    let oracle_call :=
      ChunkOracleCall document_with_line_numbers start_index
        min_num_chunks max_num_chunks in
    if check_for_fallback_chunking_usage min_num_chunks max_num_chunks
         new_chunks
    then
      document_text <-
        content_loop document_lines (range start_index (end_index + 1)) "" ;;
      let new_chunks := split_text document_text in
      Ok (map (mkChunkDict title) new_chunks,
          [oracle_call; SplitterCall document_text])
    else
      chunk_dicts <- oracle_chunks_loop title document_lines new_chunks ;;
      Ok (chunk_dicts, [oracle_call]).

Fixpoint chunks_loop (segments : list SectionDict)
    (document_lines : list string)
    (all_chunk_dicts : list ChunkDict) (trace : list call)
  : result (list ChunkDict * list call) :=
  match segments with
  | [] => Ok (all_chunk_dicts, trace)
  | segment :: rest =>
      ' (chunk_dicts, calls) <- segment_chunks segment document_lines ;;
      chunks_loop rest document_lines
        (all_chunk_dicts ++ chunk_dicts) (trace ++ calls)
  end.

Definition get_chunks_from_segments (segments : list SectionDict)
    (document_lines : list string) : result (list ChunkDict * list call) :=
  chunks_loop segments document_lines [] [].

End Chunking.

(** ** Window walker *)

Section Walker.

Variables llm_provider model : string.

(** [get_structured_document(...).sections]: the oracle. *)
Variable get_structured_document :
  string -> Z -> Z -> string -> string -> result (list Section_).

(** The [for _ in range(max_iterations)] loop; [n] counts the
    iterations left.  Running out of iterations falls through to the
    code after the loop. *)
Fixpoint walk_loop (n : nat) (document_lines : list string)
    (max_characters start_line : Z) (all_sections : list Section_)
  : result (list Section_) :=
  match n with
  | O => Ok all_sections
  | S n' =>
      ' (document_with_line_numbers, end_line) <-
        get_document_with_lines document_lines start_line max_characters ;;
      new_sections <-
        get_structured_document document_with_line_numbers start_line
          end_line llm_provider model ;;
      let all_sections := (all_sections ++ new_sections)%list in
      if end_line >=? len document_lines - 1 then Ok all_sections
      else if len new_sections >? 1 then
        match rev all_sections with
        | last_section :: _ =>
            walk_loop n' document_lines max_characters
              (start_index last_section) (removelast all_sections)
        | [] => Raise IndexError
        end
      else
        walk_loop n' document_lines max_characters (end_line + 1)
          all_sections
  end.

Definition get_sections (document : string) (max_characters : Z)
  : result (list SectionDict * list string) :=
  q <- floordiv (slen document) max_characters ;;
  let max_iterations := 2 * (q + 1) in
  let document_lines := get_document_lines document in
  all_sections <-
    walk_loop (Z.to_nat max_iterations) document_lines max_characters 0 [] ;;
  Ok (get_sections_text all_sections document_lines, document_lines).

End Walker.

(** ** Partition validator and normaliser

    The tests import [is_valid_partition] and [partition_sections] from
    [dsrag.semantic_sectioning], a module that is not part of the sources
    at hand. *)

(** Modelled from the spec: the last check of section 4.1, over every
    adjacent pair [sections[i]], [sections[i+1]]. *)
Fixpoint adjacent_ok (sections : list Section_) : bool :=
  match sections with
  | s :: rest =>
      match rest with
      | next :: _ =>
          if start_index next =? end_index s + 1 then adjacent_ok rest
          else false
      | [] => true
      end
  | [] => true
  end.

(** Modelled from the spec: [is_valid_partition] of
    [dsrag.semantic_sectioning] is missing.  Section 4.1: it checks, in
    order, that the list is non-empty, that [sections[0].start == a], that
    [sections[-1].end == b], that every section has [start <= end], and
    that every adjacent pair has [sections[i+1].start == sections[i].end + 1];
    it returns false on the first violation. *)
Definition is_valid_partition (sections : list Section_) (a b : Z) : bool :=
  match sections with
  | [] => false
  | first :: _ =>
      if negb (start_index first =? a) then false
      else if negb (end_index (last sections first) =? b) then false
      else if negb (forallb (fun s => start_index s <=? end_index s) sections)
      then false
      else adjacent_ok sections
  end.

(** Modelled from the spec: the titleless placeholder (gap-filler) of
    sections 3 and 4.2. *)
Definition placeholder (s e : Z) : Section_ := mkSection "" s e.

(** Modelled from the spec: step 1 of section 4.2, a candidate with
    [start > end] is malformed. *)
Definition well_formed (s : Section_) : bool :=
  start_index s <=? end_index s.

(** Modelled from the spec: step 3 of section 4.2, [next] is fully
    contained in [current]. *)
Definition contained_in (next current : Section_) : bool :=
  (start_index next <=? end_index current)
  && (end_index next <=? end_index current).

(** Modelled from the spec: step 4 of section 4.2, [next] genuinely
    extends past [current]. *)
Definition extends_past (next current : Section_) : bool :=
  (start_index next <=? end_index current)
  && (end_index next >? end_index current).

(** Modelled from the spec: a candidate outside the working range.
    Section 8: an all-out-of-range input collapses to the single
    placeholder ([test__sections_outside] expects [[""(0,14)]] for
    [Outside(15,20)] over [[0,14]]), and a candidate is never clipped
    (step 5), so only a candidate that lies within [[a, b]] can be kept. *)
Definition within (a b : Z) (s : Section_) : bool :=
  (a <=? start_index s) && (end_index s <=? b).

(** Modelled from the spec: the pass of section 4.2 goes left to right
    with a cursor that only advances, and its contract holds for any
    input list; the candidates are therefore taken in ascending order of
    [start_index], candidates with the same start staying in input
    order. *)
Fixpoint insert_by_start (s : Section_) (ordered : list Section_)
  : list Section_ :=
  match ordered with
  | [] => [s]
  | t :: rest =>
      if start_index s <=? start_index t then s :: t :: rest
      else t :: insert_by_start s rest
  end.

Fixpoint sort_by_start (candidates : list Section_) : list Section_ :=
  match candidates with
  | [] => []
  | s :: rest => insert_by_start s (sort_by_start rest)
  end.

(** Modelled from the spec: the titleless placeholder for the gap
    between the cursor and a candidate that starts after it (step 5; the
    same gap is owed in front of a candidate that step 4 invalidates, as
    the contract of section 4.2 demands and
    [test__gap_then_overlapping_section] shows with [""(4,6)]). *)
Definition gap_before (cursor : Z) (candidate : Section_) : list Section_ :=
  if start_index candidate >? cursor
  then [placeholder cursor (start_index candidate - 1)] else [].

(** Modelled from the spec: step 4 of section 4.2, the placeholder
    [[max(cursor, current.start), next.start - 1]] for the invalidated
    [current], emitted only when that range is non-empty. *)
Definition overlap_placeholder (cursor : Z) (current next : Section_)
  : list Section_ :=
  let s := Z.max cursor (start_index current) in
  if start_index next - 1 >=? s then [placeholder s (start_index next - 1)]
  else [].

(** Modelled from the spec: step 5 of section 4.2, the gap before the
    candidate, then the candidate unchanged. *)
Definition accept (cursor : Z) (candidate : Section_) : list Section_ :=
  gap_before cursor candidate ++ [candidate].

(** Modelled from the spec: step 6 of section 4.2, the trailing gap. *)
Definition trailing_gap (cursor b : Z) : list Section_ :=
  if cursor <=? b then [placeholder cursor b] else [].

(** Modelled from the spec: the single left-to-right pass of section 4.2
    (steps 2 to 6) of the missing [partition_sections].  [current] is the
    candidate under consideration ([None] while one is being looked for)
    and [rest] the candidates after it.  Step 2 drops a candidate that
    ends before the cursor; step 3 drops a [next] contained in [current];
    step 4 invalidates a [current] that [next] extends past, leaving
    placeholders up to [next.start - 1] and moving the cursor there;
    step 5 accepts [current]; step 6 closes with the trailing gap. *)
Fixpoint repair (b cursor : Z) (current : option Section_)
    (rest : list Section_) : list Section_ :=
  match rest with
  | [] =>
      match current with
      | None => trailing_gap cursor b
      | Some cur => accept cursor cur ++ trailing_gap (end_index cur + 1) b
      end
  | next :: rest' =>
      match current with
      | None =>
          if end_index next <? cursor then repair b cursor None rest'
          else repair b cursor (Some next) rest'
      | Some cur =>
          if contained_in next cur then repair b cursor (Some cur) rest'
          else if extends_past next cur then
            gap_before cursor cur
            ++ overlap_placeholder cursor cur next
            ++ repair b (start_index next) (Some next) rest'
          else
            let cursor' := end_index cur + 1 in
            accept cursor cur
            ++ (if end_index next <? cursor' then repair b cursor' None rest'
                else repair b cursor' (Some next) rest')
      end
  end.

(** Modelled from the spec: [partition_sections] of
    [dsrag.semantic_sectioning] is missing.  Section 4.2 and section 8:
    malformed candidates (step 1) and candidates outside [[a, b]] are
    dropped first; when no candidate survives steps 1 and 2 the result is
    the single placeholder [[a, b]] (step 7); otherwise the pass of steps
    2 to 6 runs over the survivors with the cursor at [a]. *)
Definition partition_sections (candidates : list Section_) (a b : Z)
  : list Section_ :=
  let survivors :=
    sort_by_start
      (filter (fun s => well_formed s && within a b s) candidates) in
  if forallb (fun s => end_index s <? a) survivors then [placeholder a b]
  else repair b a None survivors.

(** ** Vocabulary of the statements *)

(** The line addressed by [i], a negative [i] counting from the end;
    empty where [i] addresses no line. *)
Definition line_at (document_lines : list string) (i : Z) : string :=
  match index document_lines i with
  | Ok line => line
  | Raise _ => ""
  end.

(** The numbered text of the lines at positions [idxs]. *)
Fixpoint numbered_text (document_lines : list string) (idxs : list Z)
  : string :=
  match idxs with
  | [] => ""
  | i :: rest =>
      numbered i (line_at document_lines i)
      ++ numbered_text document_lines rest
  end.

(** The plain text of the lines at positions [idxs], each followed by a
    newline. *)
Fixpoint plain_text (document_lines : list string) (idxs : list Z) : string :=
  match idxs with
  | [] => ""
  | i :: rest =>
      (line_at document_lines i ++ nl) ++ plain_text document_lines rest
  end.

(** The number of raw characters of the lines at positions [idxs]. *)
Fixpoint raw_length (document_lines : list string) (idxs : list Z) : Z :=
  match idxs with
  | [] => 0
  | i :: rest => slen (line_at document_lines i) + raw_length document_lines rest
  end.



(** A string of [n] copies of one character. *)
Fixpoint replicate (n : nat) (c : ascii) : string :=
  match n with
  | O => EmptyString
  | S n' => String c (replicate n' c)
  end.

(** ** Inputs of the unit tests and of the evaluations below *)

Definition text_46 : string :=
  "This is a random string of a lot of characters".

Definition six_chunks : list (Z * Z) :=
  [(0, 1); (2, 3); (4, 5); (6, 7); (8, 9); (10, 11)].

Definition three_chunks : list (Z * Z) := [(0, 1); (2, 3); (4, 5)].

Definition three_lines : list string := ["aaa"; "bbb"; "c"].

Definition two_lines : list string := ["a"; "b"].

(** [test__gap_then_overlapping_section] *)
Definition gap_then_overlap : list Section_ :=
  [mkSection "Introduction" 0 3; mkSection "Body" 7 11;
   mkSection "Conclusion" 10 14].

(** [test__sections_outside] *)
Definition sections_outside : list Section_ := [mkSection "Outside" 15 20].

(** [test__complete_partition] and [test__valid_partition] *)
Definition complete_partition : list Section_ :=
  [mkSection "Introduction" 0 4; mkSection "Body" 5 9;
   mkSection "Conclusion" 10 14].

(** [test__invalid_partition] .. [test__invalid_partition_4] *)
Definition partition_with_gap : list Section_ :=
  [mkSection "Introduction" 0 4; mkSection "Body" 5 8;
   mkSection "Conclusion" 10 14].

Definition partition_wrong_start : list Section_ :=
  [mkSection "Introduction" 1 4; mkSection "Body" 5 9;
   mkSection "Conclusion" 10 14].

Definition partition_wrong_end : list Section_ :=
  [mkSection "Introduction" 0 4; mkSection "Body" 5 9;
   mkSection "Conclusion" 10 13].

Definition partition_with_overlap : list Section_ :=
  [mkSection "Introduction" 0 4; mkSection "Body" 5 9;
   mkSection "Conclusion" 8 14].

(** A four-line document cut into two sections of two lines. *)
Definition four_lines : list string := ["l0"; "l1"; "l2"; "l3"].

Definition two_sections : list Section_ :=
  [mkSection "A" 0 1; mkSection "B" 2 3].

(** A document whose first line alone is over the 2000-character
    threshold, cut into one segment per line. *)
Definition long_document : list string :=
  [replicate 2000 "x"%char; "tail"].

Definition long_segments : list SectionDict :=
  [mkSectionDict "A" (replicate 2000 "x"%char) 0 0;
   mkSectionDict "B" "tail" 1 1].

(** An oracle that proposes the whole segment as its only chunk. *)
Definition one_chunk_oracle (document_with_line_numbers : string)
    (start_line min_chunks max_chunks : Z) (llm_provider model : string)
  : result (list Chunk) :=
  Ok [mkChunk start_line].

Definition no_split (document_text : string) : list string :=
  [document_text].

(** A three-line document walked with a window budget of 3 characters,
    and an oracle whose last section always restarts at the window's
    first line. *)
Definition stuck_document : string := "aa" ++ nl ++ "bb" ++ nl ++ "cc".

Definition stuck_oracle (document_with_line_numbers : string)
    (start_line end_line : Z) (llm_provider model : string)
  : result (list Section_) :=
  Ok [mkSection "x" start_line start_line; mkSection "y" start_line end_line].

(** ** The oracle wrappers

    [get_structured_document] and [get_structured_chunks] choose a client
    by the provider name and forward one request to it.  The clients are
    the external services; the formatted prompts are passed through to
    them unread, so both are parameters here.  The sampling temperature
    (the constant 0.0) is left out of the request. *)

Record StructuredDocument : Type := mkStructuredDocument
  { sections : list Section_ }.

Record StructuredChunk : Type := mkStructuredChunk
  { chunks : list Chunk }.

Section Providers.

(** [system_prompt.format(start_line=.., end_line=..)] *)
Variable system_prompt : Z -> Z -> string.

(** [chunk_system_prompt.format(start_line=.., min_chunks=.., max_chunks=..)] *)
Variable chunk_system_prompt : Z -> Z -> Z -> string.

(** The Anthropic client: model, max_tokens, system text, messages. *)
Variable anthropic_document :
  string -> Z -> string -> list (string * string) -> result StructuredDocument.
Variable anthropic_chunks :
  string -> Z -> string -> list (string * string) -> result StructuredChunk.

(** The OpenAI client: model, max_tokens, messages. *)
Variable openai_document :
  string -> Z -> list (string * string) -> result StructuredDocument.
Variable openai_chunks :
  string -> Z -> list (string * string) -> result StructuredChunk.

Definition get_structured_document (document_with_line_numbers : string)
    (start_line end_line : Z) (llm_provider model : string)
  : result StructuredDocument :=
  if String.eqb llm_provider "anthropic" then
    anthropic_document model 4000 (system_prompt start_line end_line)
      [("user", document_with_line_numbers)]
  else if String.eqb llm_provider "openai" then
    openai_document model 4000
      [("system", system_prompt start_line end_line);
       ("user", document_with_line_numbers)]
  else Raise ValueError.

Definition get_structured_chunks (document_with_line_numbers : string)
    (start_line min_chunks max_chunks : Z) (llm_provider model : string)
  : result StructuredChunk :=
  if String.eqb llm_provider "anthropic" then
    anthropic_chunks model 4000
      (chunk_system_prompt start_line min_chunks max_chunks)
      [("user", document_with_line_numbers)]
  else if String.eqb llm_provider "openai" then
    openai_chunks model 4000
      [("system", chunk_system_prompt start_line min_chunks max_chunks);
       ("user", document_with_line_numbers)]
  else Raise ValueError.

(** [get_structured_document(...).sections], as [get_sections] reads it. *)
Definition document_oracle (document_with_line_numbers : string)
    (start_line end_line : Z) (llm_provider model : string)
  : result (list Section_) :=
  structured_doc <-
    get_structured_document document_with_line_numbers start_line end_line
      llm_provider model ;;
  Ok (sections structured_doc).

(** [get_structured_chunks(...).chunks], as [get_chunks_from_segments]
    reads it. *)
Definition chunk_oracle (document_with_line_numbers : string)
    (start_line min_chunks max_chunks : Z) (llm_provider model : string)
  : result (list Chunk) :=
  structured_chunks <-
    get_structured_chunks document_with_line_numbers start_line min_chunks
      max_chunks llm_provider model ;;
  Ok (chunks structured_chunks).

End Providers.

(** ** More vocabulary of the statements *)

(** The number of newline characters of a text. *)
Fixpoint count_newlines (s : string) : nat :=
  match s with
  | EmptyString => O
  | String c rest =>
      if Ascii.eqb c "010"%char then S (count_newlines rest)
      else count_newlines rest
  end.

(** All the line positions of a document, first to last. *)
Definition all_lines (document_lines : list string) : list Z :=
  range 0 (len document_lines).

(** Every position from [lo] to [hi] addresses a line, counting a
    negative position from the end. *)
Definition addressable (document_lines : list string) (lo hi : Z) : Prop :=
  forall i, lo <= i <= hi ->
            - len document_lines <= i < len document_lines.

(** The chunk that [get_chunks_from_segments] emits for a segment taken
    whole. *)
Definition whole_chunk (document_lines : list string) (segment : SectionDict)
  : ChunkDict :=
  mkChunkDict (sd_title segment)
    (plain_text document_lines (range (sd_start segment) (sd_end segment + 1))).

(** The line-numbered text of a segment. *)
Definition segment_numbered (document_lines : list string)
    (segment : SectionDict) : string :=
  numbered_text document_lines (range (sd_start segment) (sd_end segment + 1)).

(** * Properties *)

(** ** Strings, ranges and indexing *)

Lemma append_assoc (s t u : string) : ((s ++ t) ++ u = s ++ (t ++ u))%string.
Proof.
  induction s as [|c s IH]; simpl.
  - reflexivity.
  - now rewrite IH.
Qed.

Lemma append_nil_r (s : string) : (s ++ "" = s)%string.
Proof.
  induction s as [|c s IH]; simpl; [reflexivity | now rewrite IH].
Qed.

Lemma len_nonneg {A : Type} (l : list A) : 0 <= len l.
Proof. unfold len. lia. Qed.

Lemma range_empty (lo hi : Z) : hi <= lo -> range lo hi = [].
Proof.
  intros H. unfold range.
  replace (Z.to_nat (hi - lo)) with 0%nat by lia. reflexivity.
Qed.

Lemma range_cons (lo hi : Z) : lo < hi -> range lo hi = lo :: range (lo + 1) hi.
Proof.
  intros H. unfold range.
  replace (Z.to_nat (hi - lo)) with (S (Z.to_nat (hi - (lo + 1)))) by lia.
  cbn [seq map]. f_equal.
  - lia.
  - rewrite <- seq_shift, map_map. apply map_ext. intros k. lia.
Qed.

Lemma index_wraps {A : Type} (l : list A) (i : Z) :
  - len l <= i < len l -> exists x, index l i = Ok x.
Proof.
  intros H. unfold index.
  set (j := if i <? 0 then i + len l else i).
  assert (Hj : 0 <= j < len l).
  { subst j. destruct (Z.ltb_spec i 0); lia. }
  destruct (Z.ltb_spec j 0) as [Hneg|_]; [lia|].
  destruct (Z.leb_spec (len l) j) as [Hge|_]; [lia|]. cbn [orb].
  destruct (nth_error l (Z.to_nat j)) as [x|] eqn:E.
  - now exists x.
  - apply nth_error_None in E. unfold len in Hj. lia.
Qed.

Lemma index_line_at (document_lines : list string) (i : Z) :
  - len document_lines <= i < len document_lines ->
  index document_lines i = Ok (line_at document_lines i).
Proof.
  intros H. unfold line_at.
  destruct (index_wraps document_lines i H) as (x & ->). reflexivity.
Qed.

Lemma index_below {A : Type} (l : list A) (i : Z) :
  i < - len l -> index l i = Raise IndexError.
Proof.
  intros H. unfold index. pose proof (len_nonneg l) as Hl.
  destruct (Z.ltb_spec i 0) as [_|Hpos]; [|lia].
  destruct (Z.ltb_spec (i + len l) 0) as [_|Hpos]; [|lia].
  reflexivity.
Qed.

(** ** Chunk target estimator *)

(** C8: for every text and positive [max_characters], the estimator
    returns (1, 2) when [expected = len(text) // max_characters + 1] is
    below 2 and [(expected - 1, expected + 1)] otherwise; it returns
    (2, 4) for a 46-character text with budget 20 and (1, 2) for "short"
    with budget 200. *)
Theorem get_target_num_chunks_band (text : string) (max_characters : Z) :
  0 < max_characters ->
  let expected := slen text / max_characters + 1 in
  (expected < 2 -> get_target_num_chunks text max_characters = Ok (1, 2))
  /\ (2 <= expected ->
      get_target_num_chunks text max_characters
      = Ok (expected - 1, expected + 1))
  /\ (String.length text = 46%nat -> max_characters = 20 ->
      get_target_num_chunks text max_characters = Ok (2, 4))
  /\ get_target_num_chunks "short" 200 = Ok (1, 2).
Proof.
  intros Hpos expected.
  assert (Hrun : get_target_num_chunks text max_characters
                 = if expected <? 2 then Ok (1, 2)
                   else Ok (expected - 1, expected + 1)).
  { unfold get_target_num_chunks, floordiv.
    destruct (Z.eqb_spec max_characters 0) as [E|_]; [lia|]. reflexivity. }
  split; [|split; [|split]].
  - intros Hlt. rewrite Hrun.
    destruct (Z.ltb_spec expected 2); [reflexivity | lia].
  - intros Hge. rewrite Hrun.
    destruct (Z.ltb_spec expected 2); [lia | reflexivity].
  - intros Hlen Hmax. rewrite Hrun. subst expected max_characters.
    unfold slen. rewrite Hlen. reflexivity.
  - reflexivity.
Qed.

Lemma get_target_num_chunks_band_witness :
  0 < 20
  /\ get_target_num_chunks text_46 20 = Ok (2, 4)
  /\ get_target_num_chunks "This is a random string" 200 = Ok (1, 2).
Proof.
  split; [lia|]. split.
  - destruct (get_target_num_chunks_band text_46 20) as (_ & _ & H & _);
      [lia|]. apply H; reflexivity.
  - destruct (get_target_num_chunks_band "This is a random string" 200)
      as (H & _); [lia|]. apply H. vm_compute. reflexivity.
Defined.

Lemma get_target_num_chunks_zero_budget (text : string) :
  get_target_num_chunks text 0 = Raise ZeroDivisionError.
Proof. reflexivity. Qed.

(** ** Fallback decision *)

(** C9: the fallback decision is true exactly when the number of chunks
    lies outside [[min // 2, max * 2]]; it is true for (1, 2) with six
    chunks and false for (2, 4) with three. *)
Theorem check_for_fallback_chunking_usage_outside_band :
  (forall (A : Type) (min_num_chunks max_num_chunks : Z) (chunks : list A),
      check_for_fallback_chunking_usage min_num_chunks max_num_chunks chunks
      = negb ((min_num_chunks / 2 <=? len chunks)
              && (len chunks <=? max_num_chunks * 2)))
  /\ (forall (A : Type) (min_num_chunks max_num_chunks : Z) (chunks : list A),
         check_for_fallback_chunking_usage min_num_chunks max_num_chunks chunks
         = true
         <-> len chunks < min_num_chunks / 2
             \/ len chunks > max_num_chunks * 2)
  /\ check_for_fallback_chunking_usage 1 2 six_chunks = true
  /\ check_for_fallback_chunking_usage 2 4 three_chunks = false.
Proof.
  assert (Hrun : forall (A : Type) (lo hi : Z) (chunks : list A),
             check_for_fallback_chunking_usage lo hi chunks
             = negb ((lo / 2 <=? len chunks) && (len chunks <=? hi * 2))).
  { intros A lo hi chunks. unfold check_for_fallback_chunking_usage.
    destruct (Z.ltb_spec (len chunks) (lo / 2));
      destruct (Z.gtb_spec (len chunks) (hi * 2));
      destruct (Z.leb_spec (lo / 2) (len chunks));
      destruct (Z.leb_spec (len chunks) (hi * 2)); cbn; try reflexivity; lia. }
  split; [exact Hrun|]. split; [|split; reflexivity].
  intros A lo hi chunks. rewrite Hrun.
  destruct (Z.leb_spec (lo / 2) (len chunks));
    destruct (Z.leb_spec (len chunks) (hi * 2)); cbn; split;
    try discriminate; try reflexivity; try lia; intros _; lia.
Qed.

(** ** Window materialisation *)

Section Window.

Variable document_lines : list string.
Variable max_characters : Z.

Let n := len document_lines.

(** Invariant of the window loop entered at an addressable line [i]:
    it stops at some line [e], having appended the numbered lines
    [i .. e]. *)
Lemma window_loop_stops (k : nat) :
  forall (i : Z) (acc : string) (count : Z),
    Z.of_nat k = n - i -> - n <= i -> (0 < k)%nat ->
    exists e,
      window_loop document_lines max_characters (range i n) acc count
      = Ok ((acc ++ numbered_text document_lines (range i (e + 1)))%string, e)
      /\ i <= e <= n - 1
      /\ (count + raw_length document_lines (range i (e + 1))
          > max_characters \/ e = n - 1)
      /\ (forall j, i <= j < e ->
            count + raw_length document_lines (range i (j + 1))
            <= max_characters).
Proof.
  induction k as [|k IH]; intros i acc count Hk Hi Hpos; [lia|].
  rewrite (range_cons i n) by lia. cbn [window_loop].
  rewrite (index_line_at document_lines i) by (fold n; lia).
  cbn [bind]. fold n.
  assert (Hone : range i (i + 1) = [i]).
  { rewrite range_cons by lia. now rewrite range_empty by lia. }
  destruct ((count + slen (line_at document_lines i) >? max_characters)
            || (i =? n - 1)) eqn:Hstop.
  - exists i. rewrite Hone. cbn [numbered_text raw_length].
    rewrite append_nil_r. split; [reflexivity|]. split; [lia|]. split.
    + apply orb_true_iff in Hstop. destruct Hstop as [H|H].
      * left. apply Z.gtb_lt in H. lia.
      * right. apply Z.eqb_eq in H. exact H.
    + intros j Hj. lia.
  - apply orb_false_iff in Hstop. destruct Hstop as [Hle Hne].
    apply Z.gtb_ltb in Hle || idtac.
    assert (Hle' : count + slen (line_at document_lines i) <= max_characters).
    { destruct (Z.gtb_spec (count + slen (line_at document_lines i))
                  max_characters); [discriminate | lia]. }
    apply Z.eqb_neq in Hne.
    destruct (IH (i + 1)
                (acc ++ numbered i (line_at document_lines i))%string
                (count + slen (line_at document_lines i)))
      as (e & Hrun & Hrange & Hlast & Hbefore); try lia.
    exists e. rewrite Hrun. rewrite (range_cons i (e + 1)) by lia.
    cbn [numbered_text raw_length]. rewrite append_assoc.
    split; [reflexivity|]. split; [lia|]. split; [lia|].
    intros j Hj. destruct (Z.eq_dec j i) as [->|Hji].
    + rewrite Hone. cbn [raw_length]. lia.
    + rewrite (range_cons i (j + 1)) by lia. cbn [raw_length].
      specialize (Hbefore j). lia.
Qed.

(** C10, as amended: [get_document_with_lines] returns normally exactly
    when [-len(document_lines) <= start_line <= len(document_lines) - 1]
    (a negative start line counts from the end).  Under that condition it
    returns [(text, end_line)] with [start_line <= end_line <= len - 1],
    where [text] is the numbered lines [start_line .. end_line] and
    [end_line] is the first index at which the cumulative raw line length
    exceeds [max_characters] or the document ends.  For a start line past
    the last index it fails because [end_line] is never assigned, and for
    one below [-len(document_lines)] the first line lookup fails. *)
Theorem get_document_with_lines_total (start_line : Z) :
  ((exists r,
       get_document_with_lines document_lines start_line max_characters
       = Ok r)
   <-> - n <= start_line <= n - 1)
  /\ (n <= start_line ->
      get_document_with_lines document_lines start_line max_characters
      = Raise UnboundLocalError)
  /\ (start_line < - n ->
      get_document_with_lines document_lines start_line max_characters
      = Raise IndexError)
  /\ (- n <= start_line <= n - 1 ->
      exists text end_line,
        get_document_with_lines document_lines start_line max_characters
        = Ok (text, end_line)
        /\ start_line <= end_line <= n - 1
        /\ text = numbered_text document_lines
                    (range start_line (end_line + 1))
        /\ (raw_length document_lines (range start_line (end_line + 1))
            > max_characters \/ end_line = n - 1)
        /\ (forall j, start_line <= j < end_line ->
              raw_length document_lines (range start_line (j + 1))
              <= max_characters)).
Proof.
  pose proof (len_nonneg document_lines) as Hn. fold n in Hn.
  assert (Hpast : n <= start_line ->
            get_document_with_lines document_lines start_line max_characters
            = Raise UnboundLocalError).
  { intros H. unfold get_document_with_lines. fold n.
    now rewrite range_empty by lia. }
  assert (Hbelow : start_line < - n ->
            get_document_with_lines document_lines start_line max_characters
            = Raise IndexError).
  { intros H. unfold get_document_with_lines. fold n.
    rewrite range_cons by lia. cbn [window_loop].
    now rewrite index_below by (fold n; lia). }
  split; [|split; [exact Hpast | split; [exact Hbelow|]]].
  - split.
    + intros (r & Hr).
      destruct (Z.le_gt_cases n start_line) as [H|H];
        [rewrite Hpast in Hr by exact H; discriminate|].
      destruct (Z.lt_ge_cases start_line (- n)) as [H'|H'];
        [rewrite Hbelow in Hr by exact H'; discriminate|]. lia.
    + intros H. unfold get_document_with_lines. fold n.
      destruct (window_loop_stops (Z.to_nat (n - start_line)) start_line "" 0)
        as (e & Hrun & _); try lia.
      eexists. exact Hrun.
  - intros H. unfold get_document_with_lines. fold n.
    destruct (window_loop_stops (Z.to_nat (n - start_line)) start_line "" 0)
      as (e & Hrun & Hrange & Hlast & Hbefore); try lia.
    exists (numbered_text document_lines (range start_line (e + 1))), e.
    split; [exact Hrun|]. split; [exact Hrange|]. split; [reflexivity|].
    split; [exact Hlast|]. intros j Hj. specialize (Hbefore j Hj). lia.
Qed.

End Window.

Lemma get_document_with_lines_total_witness :
  - len three_lines <= 0 <= len three_lines - 1
  /\ exists text end_line,
      get_document_with_lines three_lines 0 4 = Ok (text, end_line)
      /\ 0 <= end_line <= len three_lines - 1
      /\ text = numbered_text three_lines (range 0 (end_line + 1))
      /\ (raw_length three_lines (range 0 (end_line + 1)) > 4
          \/ end_line = len three_lines - 1)
      /\ (forall j, 0 <= j < end_line ->
            raw_length three_lines (range 0 (j + 1)) <= 4).
Proof.
  split; [vm_compute; split; discriminate|].
  apply (get_document_with_lines_total three_lines 4 0).
  vm_compute; split; discriminate.
Defined.

(** C10, as stated, fails: a start line outside
    [0 .. len(document_lines) - 1] on which the function returns. *)
Lemma get_document_with_lines_negative_start :
  get_document_with_lines two_lines (-1) 100
  = Ok ("[-1] b" ++ nl ++ "[0] a" ++ nl ++ "[1] b" ++ nl, 1)%string
  /\ (-1 <? 0) = true.
Proof. split; reflexivity. Qed.

(** ** Section contents *)

Lemma slice_length {A : Type} (l : list A) (lo hi : Z) :
  0 <= lo <= hi -> hi <= len l ->
  List.length (slice l lo hi) = Z.to_nat (hi - lo).
Proof.
  intros Hlo Hhi. unfold slice, clamp.
  destruct (Z.ltb_spec lo 0) as [H|_]; [lia|].
  destruct (Z.ltb_spec hi 0) as [H|_]; [lia|].
  rewrite length_firstn, length_skipn. unfold len in *. lia.
Qed.

(** The first section's dictionary reports the inferred end line, and
    its content is cut from [end - start] lines: the line at [end] itself
    is left out of the slice. *)
Lemma get_sections_text_head (s : Section_) (rest : list Section_)
    (document_lines : list string) :
  let end_index :=
    match rest with
    | [] => len document_lines - 1
    | next :: _ => start_index next - 1
    end in
  0 <= start_index s <= end_index -> end_index < len document_lines ->
  exists contents,
    get_sections_text (s :: rest) document_lines
    = mkSectionDict (title s) (join nl contents) (start_index s) end_index
        :: get_sections_text rest document_lines
    /\ contents = slice document_lines (start_index s) end_index
    /\ Z.of_nat (List.length contents) = end_index - start_index s.
Proof.
  intros end_index Hs He.
  exists (slice document_lines (start_index s) end_index).
  split; [reflexivity|]. split; [reflexivity|].
  rewrite slice_length by lia. lia.
Qed.

(** C3 (evaluation at [two_sections], [four_lines]): each section reports
    the inferred inclusive end line (1 and 3), but its content stops one
    line short of it: "l0" and "l2" instead of the lines 0..1 and 2..3. *)
Theorem get_sections_text_drops_end_line :
  get_sections_text two_sections four_lines
  = [mkSectionDict "A" "l0" 0 1; mkSectionDict "B" "l2" 2 3]
  /\ map (fun d => join nl (slice four_lines (sd_start d) (sd_end d + 1)))
       (get_sections_text two_sections four_lines)
     = [("l0" ++ nl ++ "l1")%string; ("l2" ++ nl ++ "l3")%string]
  /\ is_valid_partition two_sections 0 (len four_lines - 1) = true.
Proof. repeat split. Qed.

(** ** Chunks of a segment *)

Lemma in_range (lo hi i : Z) : In i (range lo hi) -> lo <= i < hi.
Proof.
  unfold range. intros H. apply in_map_iff in H.
  destruct H as (k & <- & Hk). apply in_seq in Hk. lia.
Qed.

Lemma annotate_loop_in_range (document_lines : list string) (idxs : list Z) :
  (forall i, In i idxs -> - len document_lines <= i < len document_lines) ->
  forall acc,
    annotate_loop document_lines idxs acc
    = Ok (acc ++ numbered_text document_lines idxs)%string.
Proof.
  induction idxs as [|i idxs IH]; intros Hin acc; cbn [annotate_loop numbered_text].
  - now rewrite append_nil_r.
  - rewrite (index_line_at document_lines i) by (apply Hin; now left).
    cbn [bind]. rewrite IH by (intros j Hj; apply Hin; now right).
    now rewrite append_assoc.
Qed.

Lemma content_loop_in_range (document_lines : list string) (idxs : list Z) :
  (forall i, In i idxs -> - len document_lines <= i < len document_lines) ->
  forall acc,
    content_loop document_lines idxs acc
    = Ok (acc ++ plain_text document_lines idxs)%string.
Proof.
  induction idxs as [|i idxs IH]; intros Hin acc; cbn [content_loop plain_text].
  - now rewrite append_nil_r.
  - rewrite (index_line_at document_lines i) by (apply Hin; now left).
    cbn [bind]. rewrite IH by (intros j Hj; apply Hin; now right).
    now rewrite !append_assoc.
Qed.

Section ChunkingFacts.

Variables llm_provider model : string.
Variable get_structured_chunks :
  string -> Z -> Z -> Z -> string -> string -> result (list Chunk).
Variable split_text : string -> list string.

Local Abbreviation segment_chunks' :=
  (segment_chunks llm_provider model get_structured_chunks split_text).
Local Abbreviation chunks_loop' :=
  (chunks_loop llm_provider model get_structured_chunks split_text).
Local Abbreviation get_chunks_from_segments' :=
  (get_chunks_from_segments llm_provider model get_structured_chunks split_text).

(** The accumulators of the loop over segments are only appended to. *)
Lemma chunks_loop_acc (document_lines : list string)
    (segments : list SectionDict) :
  forall all trace,
    chunks_loop' segments document_lines all trace
    = (' (chunk_dicts, calls) <- chunks_loop' segments document_lines [] [] ;;
       Ok ((all ++ chunk_dicts)%list, (trace ++ calls)%list)).
Proof.
  induction segments as [|seg segments IH]; intros all trace; cbn [chunks_loop bind].
  - now rewrite !app_nil_r.
  - destruct (segment_chunks' seg document_lines) as [[cs tr]|e]; cbn [bind];
      [|reflexivity].
    cbn [app]. rewrite (IH (all ++ cs)%list (trace ++ tr)%list), (IH cs tr).
    destruct (chunks_loop' segments document_lines [] []) as [[cs' tr']|e];
      cbn [bind]; [|reflexivity].
    now rewrite !app_assoc.
Qed.

Lemma chunks_loop_app (document_lines : list string)
    (pre post : list SectionDict) :
  forall all trace,
    chunks_loop' (pre ++ post) document_lines all trace
    = (' (all', trace') <- chunks_loop' pre document_lines all trace ;;
       chunks_loop' post document_lines all' trace').
Proof.
  induction pre as [|seg pre IH]; intros all trace; cbn [chunks_loop app bind].
  - reflexivity.
  - destruct (segment_chunks' seg document_lines) as [[cs tr]|e]; cbn [bind];
      [apply IH | reflexivity].
Qed.

(** A segment whose numbered text is under 2000 characters: one chunk,
    no external call. *)
Lemma segment_chunks_small (segment : SectionDict)
    (document_lines : list string) :
  (forall i, sd_start segment <= i <= sd_end segment ->
             - len document_lines <= i < len document_lines) ->
  slen (numbered_text document_lines
          (range (sd_start segment) (sd_end segment + 1))) < 2000 ->
  segment_chunks' segment document_lines
  = Ok ([mkChunkDict (sd_title segment)
           (plain_text document_lines
              (range (sd_start segment) (sd_end segment + 1)))], []).
Proof.
  intros Haddr Hsmall. unfold segment_chunks, get_chunk_content.
  assert (Hin : forall i,
             In i (range (sd_start segment) (sd_end segment + 1)) ->
             - len document_lines <= i < len document_lines).
  { intros i Hi. apply in_range in Hi. apply Haddr. lia. }
  rewrite annotate_loop_in_range by exact Hin. cbn [bind append].
  destruct (Z.ltb_spec
              (slen (numbered_text document_lines
                       (range (sd_start segment) (sd_end segment + 1)))) 2000)
    as [_|Hge]; [|lia].
  rewrite content_loop_in_range by exact Hin. reflexivity.
Qed.


End ChunkingFacts.



(** In the branch that trusts the oracle, a chunk that has a successor
    ends one line before the successor's start, and the last chunk ends
    at the last line of the document. *)
Lemma oracle_chunks_loop_inner (title : string) (document_lines : list string)
    (chunk next : Chunk) (rest : list Chunk) :
  oracle_chunks_loop title document_lines (chunk :: next :: rest)
  = (chunk_content <-
       get_chunk_content (chunk_start_index chunk) (chunk_start_index next - 1)
         document_lines ;;
     more <- oracle_chunks_loop title document_lines (next :: rest) ;;
     Ok (mkChunkDict title chunk_content :: more)).
Proof. reflexivity. Qed.

Lemma oracle_chunks_loop_last (title : string) (document_lines : list string)
    (chunk : Chunk) :
  oracle_chunks_loop title document_lines [chunk]
  = (chunk_content <-
       get_chunk_content (chunk_start_index chunk) (len document_lines - 1)
         document_lines ;;
     Ok [mkChunkDict title chunk_content]).
Proof.
  cbn [oracle_chunks_loop].
  destruct (get_chunk_content (chunk_start_index chunk)
              (len document_lines - 1) document_lines); reflexivity.
Qed.

(** C4 (evaluation at [long_segments], [long_document]): the oracle's
    single chunk for segment A (line 0 only) is accepted without
    fallback, and the chunk emitted for it runs to the last line of the
    document: it holds lines 0..1, not the lines 0..0 of its segment. *)
Theorem last_chunk_runs_to_document_end :
  exists document_with_line_numbers,
    get_chunks_from_segments "openai" "gpt-4o-mini" one_chunk_oracle no_split
      long_segments long_document
    = Ok ([mkChunkDict "A" (plain_text long_document (range 0 2));
           mkChunkDict "B" (plain_text long_document (range 1 2))],
          [ChunkOracleCall document_with_line_numbers 0 1 3])
    /\ get_chunk_content 0 0 long_document
       = Ok (plain_text long_document (range 0 1))
    /\ slen (plain_text long_document (range 0 2)) = 2006
    /\ slen (plain_text long_document (range 0 1)) = 2001.
Proof.
  eexists. repeat split; vm_compute; reflexivity.
Qed.

(** ** Window walker at its iteration cap *)

Section WalkerFacts.

Variables llm_provider model : string.
Variable get_structured_document :
  string -> Z -> Z -> string -> string -> result (list Section_).

Local Abbreviation walk_loop' :=
  (walk_loop llm_provider model get_structured_document).
Local Abbreviation get_sections' :=
  (get_sections llm_provider model get_structured_document).

Variable document_lines : list string.
Variable max_characters : Z.
Variables (text : string) (end_line : Z).
Variables (init : list Section_) (last_section : Section_).

(** The window opened at line 0 stops before the last line, and for it
    the oracle answers more than one section, the last of which starts
    again at line 0: the cursor never advances. *)
Hypothesis window_short :
  get_document_with_lines document_lines 0 max_characters = Ok (text, end_line).
Hypothesis window_not_at_end : end_line < len document_lines - 1.
Hypothesis oracle_answer :
  get_structured_document text 0 end_line llm_provider model
  = Ok (init ++ [last_section])%list.
Hypothesis several_sections : init <> [].
Hypothesis oracle_stuck : start_index last_section = 0.

(** Every iteration keeps the cursor at line 0 and keeps all but the
    last of the window's sections; after [n] iterations the loop falls
    through with what it has accumulated. *)
Lemma walk_loop_stuck (n : nat) :
  forall all_sections,
    walk_loop' n document_lines max_characters 0 all_sections
    = Ok (all_sections ++ List.concat (repeat init n))%list.
Proof.
  induction n as [|n IH]; intros all_sections; cbn [walk_loop repeat List.concat].
  - now rewrite app_nil_r.
  - rewrite window_short. cbn [bind]. rewrite oracle_answer. cbn [bind].
    destruct (Z.geb_spec end_line (len document_lines - 1)) as [H|_]; [lia|].
    assert (Hlen : (len (init ++ [last_section])%list >? 1) = true).
    { apply Z.gtb_lt. unfold len. rewrite length_app. cbn [List.length].
      destruct init; [contradiction | cbn [List.length]; lia]. }
    rewrite Hlen, app_assoc, rev_app_distr. cbn [rev app].
    rewrite removelast_last, oracle_stuck, IH, <- app_assoc. reflexivity.
Qed.

End WalkerFacts.

(** C5, as amended: when the oracle never advances the cursor and the
    window never reaches the document's last line, [get_sections] runs its
    [2 * (len(document) // max_characters + 1)] iterations and then returns
    normally, without any error: the result is [get_sections_text] of the
    sections accumulated so far (all but the last of every window),
    together with the document lines. *)
Theorem get_sections_returns_at_cap (llm_provider model : string)
    (get_structured_document :
       string -> Z -> Z -> string -> string -> result (list Section_))
    (document : string) (max_characters : Z) (text : string) (end_line : Z)
    (init : list Section_) (last_section : Section_) :
  max_characters <> 0 ->
  get_document_with_lines (get_document_lines document) 0 max_characters
  = Ok (text, end_line) ->
  end_line < len (get_document_lines document) - 1 ->
  get_structured_document text 0 end_line llm_provider model
  = Ok (init ++ [last_section])%list ->
  init <> [] ->
  start_index last_section = 0 ->
  get_sections llm_provider model get_structured_document document max_characters
  = Ok (get_sections_text
          (List.concat (repeat init
                     (Z.to_nat (2 * (slen document / max_characters + 1)))))
          (get_document_lines document),
        get_document_lines document).
Proof.
  intros Hmax Hwin Hend Horacle Hinit Hstuck.
  unfold get_sections, floordiv.
  destruct (Z.eqb_spec max_characters 0) as [E|_]; [contradiction|].
  cbn [bind].
  rewrite (walk_loop_stuck llm_provider model get_structured_document
             (get_document_lines document) max_characters text end_line
             init last_section Hwin Hend Horacle Hinit Hstuck).
  reflexivity.
Qed.

Lemma get_sections_returns_at_cap_witness :
  get_sections "openai" "gpt-4o-mini" stuck_oracle stuck_document 3
  = Ok (get_sections_text (List.concat (repeat [mkSection "x" 0 0] 6))
          (get_document_lines stuck_document),
        get_document_lines stuck_document).
Proof.
  apply (get_sections_returns_at_cap "openai" "gpt-4o-mini" stuck_oracle
           stuck_document 3
           ("[0] aa" ++ nl ++ "[1] bb" ++ nl)%string 1
           [mkSection "x" 0 0] (mkSection "y" 0 1));
    vm_compute; reflexivity || discriminate.
Defined.

(** C5, as stated, fails: on [stuck_document] with a budget of 3
    characters the window opened at line 0 ends at line 1 of 0..2, the
    oracle restarts at line 0 every time, the six iterations of the cap
    are used up, and the call returns a section list instead of raising. *)
Lemma get_sections_cap_is_silent :
  get_document_with_lines (get_document_lines stuck_document) 0 3
  = Ok ("[0] aa" ++ nl ++ "[1] bb" ++ nl, 1)%string
  /\ len (get_document_lines stuck_document) - 1 = 2
  /\ 2 * (slen stuck_document / 3 + 1) = 6
  /\ exists section_dicts,
      get_sections "openai" "gpt-4o-mini" stuck_oracle stuck_document 3
      = Ok (section_dicts, ["aa"; "bb"; "cc"])
      /\ map sd_title section_dicts = ["x"; "x"; "x"; "x"; "x"; "x"]
      /\ map sd_start section_dicts = [0; 0; 0; 0; 0; 0].
Proof.
  split; [reflexivity|]. split; [reflexivity|]. split; [reflexivity|].
  eexists. split; [vm_compute; reflexivity|]. split; reflexivity.
Qed.

(** ** Partition validator *)

Lemma last_nth_error {A : Type} (l : list A) (d : A) :
  l <> [] -> nth_error l (List.length l - 1) = Some (last l d).
Proof.
  induction l as [|x l IH]; intros Hne; [contradiction|].
  destruct l as [|y l]; [reflexivity|].
  change (last (x :: y :: l) d) with (last (y :: l) d).
  rewrite <- IH by discriminate. cbn [List.length].
  replace (S (S (List.length l)) - 1)%nat with (S (S (List.length l) - 1))%nat
    by lia.
  reflexivity.
Qed.


Lemma adjacent_ok_iff (sections : list Section_) :
  adjacent_ok sections = true
  <-> forall i s next,
      nth_error sections i = Some s ->
      nth_error sections (S i) = Some next ->
      start_index next = end_index s + 1.
Proof.
  induction sections as [|s0 rest IH].
  - split; [|reflexivity]. intros _ i s next H. destruct i; discriminate H.
  - destruct rest as [|s1 rest].
    + split; [|reflexivity]. intros _ i s next _ H.
      destruct i; discriminate H.
    + cbn [adjacent_ok]. fold (adjacent_ok (s1 :: rest)).
      destruct (Z.eqb_spec (start_index s1) (end_index s0 + 1)) as [E|NE].
      * rewrite IH. split.
        -- intros Hrest [|i] s next Hs Hn.
           ++ cbn in Hs, Hn. now inversion Hs; inversion Hn; subst.
           ++ exact (Hrest i s next Hs Hn).
        -- intros Hall i s next Hs Hn. exact (Hall (S i) s next Hs Hn).
      * split; [discriminate|]. intros Hall. exfalso. apply NE.
        exact (Hall 0%nat s0 s1 eq_refl eq_refl).
Qed.

Lemma forallb_nth_error {A : Type} (f : A -> bool) (l : list A) :
  forallb f l = true <-> forall i x, nth_error l i = Some x -> f x = true.
Proof.
  rewrite forallb_forall. split.
  - intros H i x Hx. apply H. eapply nth_error_In. exact Hx.
  - intros H x Hin. apply In_nth_error in Hin. destruct Hin as (i & Hi).
    exact (H i x Hi).
Qed.

(** C7: [is_valid_partition(sections, a, b)] is true exactly when the
    list is non-empty, [sections[0].start == a], [sections[-1].end == b],
    every section has [start <= end] and every adjacent pair has
    [sections[i+1].start == sections[i].end + 1].  It is a function of
    its three arguments alone. *)
Theorem is_valid_partition_iff (sections : list Section_) (a b : Z) :
  is_valid_partition sections a b = true
  <-> sections <> []
      /\ (exists first,
             nth_error sections 0 = Some first /\ start_index first = a)
      /\ (exists last_section,
             nth_error sections (List.length sections - 1) = Some last_section
             /\ end_index last_section = b)
      /\ (forall i s,
             nth_error sections i = Some s -> start_index s <= end_index s)
      /\ (forall i s next,
             nth_error sections i = Some s ->
             nth_error sections (S i) = Some next ->
             start_index next = end_index s + 1).
Proof.
  destruct sections as [|first rest].
  - split; [discriminate|]. intros (H & _). now contradiction H.
  - unfold is_valid_partition.
    pose proof (last_nth_error (first :: rest) first) as Hlast.
    specialize (Hlast ltac:(discriminate)).
    set (sections := first :: rest) in *.
    destruct (Z.eqb_spec (start_index first) a) as [Ea|NEa]; cbn [negb].
    2:{ split; [discriminate|]. intros (_ & (f & Hf & Hfa) & _).
        cbn in Hf. inversion Hf; subst. contradiction. }
    destruct (Z.eqb_spec (end_index (last sections first)) b) as [Eb|NEb];
      cbn [negb].
    2:{ split; [discriminate|]. intros (_ & _ & (l & Hl & Hlb) & _).
        rewrite Hlast in Hl. inversion Hl; subst. contradiction. }
    destruct (forallb (fun s => start_index s <=? end_index s) sections)
      eqn:Hwf; cbn [negb].
    + rewrite forallb_nth_error in Hwf. rewrite adjacent_ok_iff. split.
      * intros Hadj. split; [discriminate|].
        split; [exists first; split; [reflexivity | exact Ea]|].
        split; [exists (last sections first); split; [exact Hlast | exact Eb]|].
        split; [|exact Hadj].
        intros i s Hs. apply Z.leb_le. exact (Hwf i s Hs).
      * intros (_ & _ & _ & _ & Hadj). exact Hadj.
    + split; [discriminate|]. intros (_ & _ & _ & Hall & _).
      assert (Htrue : forallb (fun s => start_index s <=? end_index s) sections
                      = true).
      { apply forallb_nth_error. intros i s Hs. apply Z.leb_le.
        exact (Hall i s Hs). }
      rewrite Htrue in Hwf. discriminate.
Qed.

(** The five cases of [TestIsValidPartition]. *)
Example is_valid_partition_unit_tests :
  is_valid_partition complete_partition 0 14 = true
  /\ is_valid_partition partition_with_gap 0 14 = false
  /\ is_valid_partition partition_wrong_start 0 14 = false
  /\ is_valid_partition partition_wrong_end 0 14 = false
  /\ is_valid_partition partition_with_overlap 0 14 = false.
Proof. repeat split. Qed.

(** ** Partition normaliser *)




(** *** Ordering by start *)






(** *** Tilings *)











(** *** The pass *)



(** *** Tilings and the validator *)









(** *** The normaliser *)




(** The twelve cases of [TestPartitionSections], and the empty list. *)
Example partition_sections_unit_tests :
  partition_sections complete_partition 0 14 = complete_partition
  /\ partition_sections [mkSection "Body" 5 9; mkSection "Conclusion" 10 14] 0 14
     = [placeholder 0 4; mkSection "Body" 5 9; mkSection "Conclusion" 10 14]
  /\ partition_sections [mkSection "Introduction" 0 4; mkSection "Body" 5 9] 0 14
     = [mkSection "Introduction" 0 4; mkSection "Body" 5 9; placeholder 10 14]
  /\ partition_sections
       [mkSection "Introduction" 0 4; mkSection "Conclusion" 10 14] 0 14
     = [mkSection "Introduction" 0 4; placeholder 5 9;
        mkSection "Conclusion" 10 14]
  /\ partition_sections
       [mkSection "Introduction" 0 4; mkSection "Middle" 10 14;
        mkSection "Conclusion" 20 24] 0 24
     = [mkSection "Introduction" 0 4; placeholder 5 9; mkSection "Middle" 10 14;
        placeholder 15 19; mkSection "Conclusion" 20 24]
  /\ partition_sections
       [mkSection "Introduction" 0 6; mkSection "Body" 5 9;
        mkSection "Conclusion" 10 14] 0 14
     = [placeholder 0 4; mkSection "Body" 5 9; mkSection "Conclusion" 10 14]
  /\ partition_sections gap_then_overlap 0 14
     = [mkSection "Introduction" 0 3; placeholder 4 6; placeholder 7 9;
        mkSection "Conclusion" 10 14]
  /\ partition_sections [mkSection "Introduction" 0 6; mkSection "Body" 5 9] 0 14
     = [placeholder 0 4; mkSection "Body" 5 9; placeholder 10 14]
  /\ partition_sections
       [mkSection "Introduction" 0 10; mkSection "Subset" 5 9] 0 14
     = [mkSection "Introduction" 0 10; placeholder 11 14]
  /\ partition_sections
       [mkSection "Introduction" 0 10; mkSection "Introduction" 0 10] 0 14
     = [mkSection "Introduction" 0 10; placeholder 11 14]
  /\ partition_sections sections_outside 0 14 = [placeholder 0 14]
  /\ partition_sections [mkSection "Invalid" 10 9] 0 14 = [placeholder 0 14]
  /\ partition_sections [] 0 14 = [placeholder 0 14].
Proof. repeat split. Qed.




(** * Further properties of the module *)

(** ** Line indexer *)

Lemma split_lines_cons (s : string) :
  exists line rest, split_lines s = line :: rest.
Proof.
  destruct s as [|c s]; cbn [split_lines]; [now eexists; eexists|].
  destruct (Ascii.eqb c "010"%char); [now eexists; eexists|].
  destruct (split_lines s); now eexists; eexists.
Qed.

Lemma join_cons_char (c : ascii) (line : string) (rest : list string) :
  join nl (String c line :: rest) = String c (join nl (line :: rest)).
Proof. unfold join. cbn [String.concat]. destruct rest; reflexivity. Qed.

(** Joining the lines of a document with newlines gives the document
    back: ["\n".join(document.split("\n")) == document]. *)
Theorem get_document_lines_join (document : string) :
  join nl (get_document_lines document) = document.
Proof.
  unfold get_document_lines.
  induction document as [|c s IH]; [reflexivity|]. cbn [split_lines].
  destruct (Ascii.eqb_spec c "010"%char) as [->|_].
  - destruct (split_lines_cons s) as (line & rest & E). rewrite E in *.
    change (join nl ("" :: line :: rest))
      with ("" ++ nl ++ join nl (line :: rest))%string.
    rewrite IH. reflexivity.
  - destruct (split_lines_cons s) as (line & rest & E). rewrite E in *.
    rewrite join_cons_char, IH. reflexivity.
Qed.

(** A document has one line more than it has newline characters (so at
    least one, also when it is empty), and no line holds a newline. *)
Theorem get_document_lines_count (document : string) :
  List.length (get_document_lines document) = S (count_newlines document)
  /\ Forall (fun line => count_newlines line = O) (get_document_lines document).
Proof.
  unfold get_document_lines.
  induction document as [|c s (IHn & IHf)]; [split; [reflexivity|]|].
  - repeat constructor.
  - cbn [split_lines count_newlines].
    destruct (Ascii.eqb c "010"%char) eqn:Ec.
    + cbn [List.length]. rewrite IHn. split; [reflexivity|].
      constructor; [reflexivity | exact IHf].
    + destruct (split_lines_cons s) as (line & rest & E). rewrite E in *.
      split; [exact IHn|]. inversion IHf as [|? ? Hline Hrest]; subst.
      constructor; [|exact Hrest]. cbn [count_newlines]. now rewrite Ec.
Qed.

Lemma slen_nonneg (s : string) : 0 <= slen s.
Proof. unfold slen. lia. Qed.

Lemma line_at_app (before : list string) (line : string)
    (after : list string) :
  line_at (before ++ line :: after) (len before) = line.
Proof.
  unfold line_at, index. pose proof (len_nonneg before) as Hb.
  destruct (Z.ltb_spec (len before) 0) as [H|_]; [lia|].
  destruct (Z.ltb_spec (len before) 0) as [H|_]; [lia|].
  destruct (Z.leb_spec (len (before ++ line :: after)) (len before)) as [H|_].
  - unfold len in H. rewrite length_app in H. cbn [List.length] in H. lia.
  - cbn [orb]. unfold len. rewrite Nat2Z.id, nth_error_app2 by lia.
    now rewrite Nat.sub_diag.
Qed.

(** Read over all positions, the raw length is the sum of the lengths of
    the lines. *)
Lemma raw_length_suffix (after : list string) :
  forall before,
    raw_length (before ++ after)
      (range (len before) (len before + len after))
    = fold_right Z.add 0 (map slen after).
Proof.
  induction after as [|line after IH]; intros before.
  - now rewrite range_empty by (unfold len; cbn [List.length]; lia).
  - pose proof (len_nonneg after) as Ha.
    rewrite range_cons by (unfold len in *; cbn [List.length]; lia).
    cbn [raw_length map fold_right]. rewrite line_at_app. f_equal.
    specialize (IH (before ++ [line])%list).
    rewrite <- app_assoc in IH. cbn [app] in IH. rewrite <- IH. f_equal.
    f_equal; unfold len; rewrite ?length_app; cbn [List.length]; lia.
Qed.

Lemma raw_length_all (document_lines : list string) :
  raw_length document_lines (all_lines document_lines)
  = fold_right Z.add 0 (map slen document_lines).
Proof.
  unfold all_lines. exact (raw_length_suffix document_lines []).
Qed.

Lemma split_lines_sum (document : string) :
  slen document
  = fold_right Z.add 0 (map slen (split_lines document))
    + len (split_lines document) - 1.
Proof.
  induction document as [|c s IH]; [reflexivity|]. cbn [split_lines].
  assert (Hs : slen (String c s) = slen s + 1).
  { unfold slen. cbn [String.length]. lia. }
  rewrite Hs, IH. clear Hs IH.
  destruct (split_lines_cons s) as (line & rest & E). rewrite E.
  destruct (Ascii.eqb c "010"%char).
  - unfold len, slen. cbn [map fold_right List.length String.length]. lia.
  - unfold len, slen. cbn [map fold_right List.length String.length]. lia.
Qed.

(** The characters of a document are those of its lines plus one newline
    between each two of them:
    [len(document) == sum(len(line) for line in lines) + len(lines) - 1]. *)
Theorem get_document_lines_lengths (document : string) :
  slen document
  = raw_length (get_document_lines document)
      (all_lines (get_document_lines document))
    + len (get_document_lines document) - 1.
Proof.
  unfold get_document_lines. rewrite raw_length_all.
  apply split_lines_sum.
Qed.

(** ** Chunk content *)

Lemma range_app (lo mid hi : Z) :
  lo <= mid <= hi -> range lo hi = (range lo mid ++ range mid hi)%list.
Proof.
  intros H. remember (Z.to_nat (mid - lo)) as k eqn:Hk.
  revert lo H Hk. induction k as [|k IH]; intros lo H Hk.
  - assert (lo = mid) by lia. subst lo.
    now rewrite (range_empty mid mid) by lia.
  - rewrite (range_cons lo hi), (range_cons lo mid) by lia.
    cbn [app]. f_equal. apply IH; lia.
Qed.

Lemma index_above {A : Type} (l : list A) (i : Z) :
  len l <= i -> index l i = Raise IndexError.
Proof.
  intros H. unfold index. pose proof (len_nonneg l) as Hl.
  destruct (Z.ltb_spec i 0) as [Hneg|_]; [lia|].
  destruct (Z.ltb_spec i 0) as [Hneg|_]; [lia|].
  destruct (Z.leb_spec (len l) i) as [_|Hlt]; [reflexivity | lia].
Qed.

Lemma index_outside {A : Type} (l : list A) (i : Z) :
  i < - len l \/ len l <= i -> index l i = Raise IndexError.
Proof. intros [H|H]; [now apply index_below | now apply index_above]. Qed.

(** A line lookup either succeeds or raises IndexError. *)
Lemma index_cases (document_lines : list string) (i : Z) :
  index document_lines i = Ok (line_at document_lines i)
  \/ index document_lines i = Raise IndexError.
Proof.
  destruct (Z.lt_ge_cases i (- len document_lines)) as [H|H];
    [right; now apply index_below|].
  destruct (Z.le_gt_cases (len document_lines) i) as [H'|H'];
    [right; now apply index_above|].
  left. apply index_line_at. lia.
Qed.

Lemma content_loop_outside (document_lines : list string) (idxs : list Z) :
  (exists i, In i idxs
             /\ (i < - len document_lines \/ len document_lines <= i)) ->
  forall acc, content_loop document_lines idxs acc = Raise IndexError.
Proof.
  induction idxs as [|j idxs IH]; intros (i & Hin & Hout) acc;
    [contradiction|].
  cbn [content_loop].
  destruct (Z.lt_ge_cases j (- len document_lines)) as [Hlo|Hlo];
    [now rewrite index_below|].
  destruct (Z.le_gt_cases (len document_lines) j) as [Hhi|Hhi];
    [now rewrite index_above|].
  rewrite index_line_at by lia. cbn [bind].
  apply IH. exists i. split; [|exact Hout].
  destruct Hin as [->|Hin]; [lia | exact Hin].
Qed.

Lemma annotate_loop_outside (document_lines : list string) (idxs : list Z) :
  (exists i, In i idxs
             /\ (i < - len document_lines \/ len document_lines <= i)) ->
  forall acc, annotate_loop document_lines idxs acc = Raise IndexError.
Proof.
  induction idxs as [|j idxs IH]; intros (i & Hin & Hout) acc;
    [contradiction|].
  cbn [annotate_loop].
  destruct (Z.lt_ge_cases j (- len document_lines)) as [Hlo|Hlo];
    [now rewrite index_below|].
  destruct (Z.le_gt_cases (len document_lines) j) as [Hhi|Hhi];
    [now rewrite index_above|].
  rewrite index_line_at by lia. cbn [bind].
  apply IH. exists i. split; [|exact Hout].
  destruct Hin as [->|Hin]; [lia | exact Hin].
Qed.

Lemma range_in (lo hi i : Z) : lo <= i < hi -> In i (range lo hi).
Proof.
  intros H. unfold range. apply in_map_iff.
  exists (Z.to_nat (i - lo)). split; [lia|]. apply in_seq. lia.
Qed.

(** [get_chunk_content] returns the lines [start .. end], each followed
    by a newline, when all of these positions address a line (a negative
    position counting from the end); as soon as one of them does not, it
    raises IndexError and returns nothing.  With [end < start] it returns
    the empty text. *)
Theorem get_chunk_content_cases (start_index end_index : Z)
    (document_lines : list string) :
  (addressable document_lines start_index end_index ->
   get_chunk_content start_index end_index document_lines
   = Ok (plain_text document_lines (range start_index (end_index + 1))))
  /\ (forall i, start_index <= i <= end_index ->
         i < - len document_lines \/ len document_lines <= i ->
         get_chunk_content start_index end_index document_lines
         = Raise IndexError)
  /\ (end_index < start_index ->
      get_chunk_content start_index end_index document_lines = Ok "").
Proof.
  unfold get_chunk_content. split; [|split].
  - intros Haddr. rewrite content_loop_in_range; [reflexivity|].
    intros i Hi. apply in_range in Hi. apply Haddr. lia.
  - intros i Hi Hout. apply content_loop_outside.
    exists i. split; [apply range_in; lia | exact Hout].
  - intros H. now rewrite range_empty by lia.
Qed.

Lemma get_chunk_content_cases_witness :
  get_chunk_content 1 2 four_lines = Ok ("l1" ++ nl ++ "l2" ++ nl)%string
  /\ get_chunk_content 2 4 four_lines = Raise IndexError
  /\ get_chunk_content 3 2 four_lines = Ok "".
Proof.
  destruct (get_chunk_content_cases 1 2 four_lines) as (Hok & _ & _).
  destruct (get_chunk_content_cases 2 4 four_lines) as (_ & Hraise & _).
  destruct (get_chunk_content_cases 3 2 four_lines) as (_ & _ & Hempty).
  split; [|split].
  - apply Hok. intros i Hi. change (len four_lines) with 4. lia.
  - apply (Hraise 4); [lia|]. right. change (len four_lines) with 4. lia.
  - apply Hempty. lia.
Defined.

Lemma content_loop_acc (document_lines : list string) (idxs : list Z) :
  forall acc,
    content_loop document_lines idxs acc
    = (content <- content_loop document_lines idxs "" ;;
       Ok (acc ++ content)%string).
Proof.
  induction idxs as [|i idxs IH]; intros acc; cbn [content_loop bind].
  - now rewrite append_nil_r.
  - destruct (index document_lines i) as [line|e]; cbn [bind]; [|reflexivity].
    rewrite (IH (acc ++ line ++ nl)%string), (IH ("" ++ line ++ nl)%string).
    destruct (content_loop document_lines idxs ""); cbn [bind]; [|reflexivity].
    cbn [append]. now rewrite !append_assoc.
Qed.

Lemma content_loop_app (document_lines : list string) (xs ys : list Z) :
  forall acc,
    content_loop document_lines (xs ++ ys) acc
    = (content <- content_loop document_lines xs acc ;;
       content_loop document_lines ys content).
Proof.
  induction xs as [|i xs IH]; intros acc; cbn [content_loop app bind].
  - reflexivity.
  - destruct (index document_lines i) as [line|e]; cbn [bind];
      [apply IH | reflexivity].
Qed.

(** Reading the lines [a .. c] in one call is reading [a .. b] and then
    [b+1 .. c] and appending the two texts; either way the first position
    that addresses no line raises IndexError. *)
Theorem get_chunk_content_split (a b c : Z) (document_lines : list string) :
  a <= b + 1 <= c + 1 ->
  get_chunk_content a c document_lines
  = (first_part <- get_chunk_content a b document_lines ;;
     second_part <- get_chunk_content (b + 1) c document_lines ;;
     Ok (first_part ++ second_part)%string).
Proof.
  intros H. unfold get_chunk_content.
  rewrite (range_app a (b + 1) (c + 1)) by lia.
  rewrite content_loop_app.
  destruct (content_loop document_lines (range a (b + 1)) "") as [x|e];
    cbn [bind]; [|reflexivity].
  apply content_loop_acc.
Qed.

Lemma get_chunk_content_split_witness :
  get_chunk_content 0 3 four_lines
  = (first_part <- get_chunk_content 0 1 four_lines ;;
     second_part <- get_chunk_content (1 + 1) 3 four_lines ;;
     Ok (first_part ++ second_part)%string).
Proof. apply (get_chunk_content_split 0 1 3 four_lines). lia. Defined.

Lemma firstn_lines (k : nat) :
  forall (before after : list string),
    (k <= List.length after)%nat ->
    firstn k after
    = map (line_at (before ++ after))
        (range (len before) (len before + Z.of_nat k)).
Proof.
  induction k as [|k IH]; intros before after Hk.
  - now rewrite range_empty by lia.
  - destruct after as [|line after]; [cbn [List.length] in Hk; lia|].
    rewrite range_cons by lia. cbn [firstn map]. rewrite line_at_app. f_equal.
    cbn [List.length] in Hk.
    specialize (IH (before ++ [line])%list after ltac:(lia)).
    rewrite <- app_assoc in IH. cbn [app] in IH. rewrite IH.
    f_equal. f_equal; unfold len; rewrite ?length_app; cbn [List.length]; lia.
Qed.

(** Within the document, a slice is the list of the lines at its
    positions. *)
Lemma slice_lines (document_lines : list string) (lo hi : Z) :
  0 <= lo <= hi -> hi <= len document_lines ->
  slice document_lines lo hi = map (line_at document_lines) (range lo hi).
Proof.
  intros Hlo Hhi. unfold slice, clamp.
  destruct (Z.ltb_spec lo 0) as [H|_]; [lia|].
  destruct (Z.ltb_spec hi 0) as [H|_]; [lia|].
  replace (Z.max 0 (Z.min (len document_lines) lo)) with lo by lia.
  replace (Z.max 0 (Z.min (len document_lines) hi)) with hi by lia.
  pose proof (firstn_skipn (Z.to_nat lo) document_lines) as Hsplit.
  assert (Hlen : len (firstn (Z.to_nat lo) document_lines) = lo).
  { unfold len in *. rewrite length_firstn. lia. }
  rewrite (firstn_lines (Z.to_nat (hi - lo))
             (firstn (Z.to_nat lo) document_lines)
             (skipn (Z.to_nat lo) document_lines)).
  - rewrite Hsplit, Hlen. f_equal. f_equal. lia.
  - rewrite length_skipn. unfold len in *. lia.
Qed.

Lemma plain_text_join (document_lines : list string) (idxs : list Z) :
  idxs <> [] ->
  plain_text document_lines idxs
  = (join nl (map (line_at document_lines) idxs) ++ nl)%string.
Proof.
  induction idxs as [|i idxs IH]; intros Hne; [contradiction|].
  destruct idxs as [|j idxs].
  - cbn [plain_text map]. unfold join. cbn [String.concat].
    now rewrite append_nil_r.
  - change (plain_text document_lines (i :: j :: idxs))
      with ((line_at document_lines i ++ nl)
            ++ plain_text document_lines (j :: idxs))%string.
    rewrite IH by discriminate.
    change (join nl (map (line_at document_lines) (i :: j :: idxs)))
      with (line_at document_lines i ++ nl
            ++ join nl (map (line_at document_lines) (j :: idxs)))%string.
    now rewrite !append_assoc.
Qed.

(** For a non-empty range of lines inside the document, the chunk
    content is the lines joined by newlines, with one more newline at the
    end: [get_chunk_content(s, e, lines) == "\n".join(lines[s:e+1]) + "\n"]. *)
Theorem get_chunk_content_join (start_index end_index : Z)
    (document_lines : list string) :
  0 <= start_index <= end_index -> end_index < len document_lines ->
  get_chunk_content start_index end_index document_lines
  = Ok (join nl (slice document_lines start_index (end_index + 1)) ++ nl)%string.
Proof.
  intros Hs He. unfold get_chunk_content.
  rewrite content_loop_in_range
    by (intros i Hi; apply in_range in Hi; lia).
  cbn [append]. rewrite slice_lines by lia.
  rewrite plain_text_join; [reflexivity|].
  rewrite range_cons by lia. discriminate.
Qed.

Lemma get_chunk_content_join_witness :
  get_chunk_content 0 2
    ["This is a random string of text."; "More test text.";
     "Even more test text."; "Text that should be ignored."]
  = Ok ("This is a random string of text." ++ nl ++ "More test text." ++ nl
        ++ "Even more test text." ++ nl)%string.
Proof.
  apply (get_chunk_content_join 0 2
           ["This is a random string of text."; "More test text.";
            "Even more test text."; "Text that should be ignored."]);
    vm_compute; (split; discriminate) || reflexivity.
Defined.

(** ** Section dictionaries *)

(** [get_sections_text] builds one dictionary per section, with the
    section's title and start; it never reads a section's [end_index]:
    two section lists with the same titles and starts give the same
    dictionaries. *)
Theorem get_sections_text_ignores_end_index (sections : list Section_)
    (document_lines : list string) :
  List.length (get_sections_text sections document_lines)
  = List.length sections
  /\ map sd_title (get_sections_text sections document_lines)
     = map title sections
  /\ map sd_start (get_sections_text sections document_lines)
     = map start_index sections
  /\ (forall sections',
         map title sections' = map title sections ->
         map start_index sections' = map start_index sections ->
         get_sections_text sections' document_lines
         = get_sections_text sections document_lines).
Proof.
  induction sections as [|s rest (IHlen & IHtitle & IHstart & IHsame)].
  - repeat split. intros [|s' rest'] Ht Hs; [reflexivity | discriminate].
  - cbn [get_sections_text List.length map sd_title sd_start].
    rewrite IHlen, IHtitle, IHstart. repeat split.
    intros [|s' rest'] Ht Hs; [discriminate|].
    cbn [map] in Ht, Hs. injection Ht as Ht0 Ht. injection Hs as Hs0 Hs.
    cbn [get_sections_text]. rewrite (IHsame rest' Ht Hs), Ht0, Hs0.
    destruct rest as [|n rest], rest' as [|n' rest']; try discriminate;
      [reflexivity|].
    cbn [map] in Hs. injection Hs as Hn _. now rewrite Hn.
Qed.

(** The reported ends depend on the starts alone: each dictionary ends
    one line before the next section's start, and the last one ends at
    the document's last line, whatever the sections' own ends were. *)
Theorem get_sections_text_ends (s : Section_) (rest : list Section_)
    (document_lines : list string) :
  map sd_end (get_sections_text (s :: rest) document_lines)
  = (map (fun next => start_index next - 1) rest
     ++ [len document_lines - 1])%list.
Proof.
  revert s. induction rest as [|next rest IH]; intros s; [reflexivity|].
  change (get_sections_text (s :: next :: rest) document_lines)
    with (mkSectionDict (title s)
            (join nl (slice document_lines (start_index s)
                        (start_index next - 1)))
            (start_index s) (start_index next - 1)
          :: get_sections_text (next :: rest) document_lines).
  cbn [map sd_end app]. now rewrite IH.
Qed.

(** Every dictionary's content is the slice of the document from its
    reported start up to, and excluding, its reported end line: inside
    the document these are the lines [start .. end - 1]. *)
Theorem get_sections_text_content (sections : list Section_)
    (document_lines : list string) :
  Forall
    (fun d =>
       sd_content d = join nl (slice document_lines (sd_start d) (sd_end d))
       /\ (0 <= sd_start d <= sd_end d -> sd_end d <= len document_lines ->
           sd_content d
           = join nl (map (line_at document_lines)
                        (range (sd_start d) (sd_end d)))))
    (get_sections_text sections document_lines).
Proof.
  induction sections as [|s rest IH]; [constructor|].
  cbn [get_sections_text]. constructor; [|exact IH].
  cbn [sd_content sd_start sd_end]. split; [reflexivity|].
  intros Hs He. now rewrite slice_lines by lia.
Qed.

(** ** Chunk count band and fallback together *)

(** For a positive budget the band is [(min, max)] with
    [1 <= min < max <= min + 2], and a chunk list whose length lies
    within the band never triggers the fallback. *)
Theorem band_never_triggers_fallback (text : string) (max_characters : Z) :
  0 < max_characters ->
  exists min_num_chunks max_num_chunks,
    get_target_num_chunks text max_characters
    = Ok (min_num_chunks, max_num_chunks)
    /\ 1 <= min_num_chunks < max_num_chunks
    /\ max_num_chunks <= min_num_chunks + 2
    /\ forall (A : Type) (chunks : list A),
        min_num_chunks <= len chunks <= max_num_chunks ->
        check_for_fallback_chunking_usage min_num_chunks max_num_chunks chunks
        = false.
Proof.
  intros Hpos. unfold get_target_num_chunks, floordiv.
  destruct (Z.eqb_spec max_characters 0) as [E|_]; [lia|]. cbn [bind].
  assert (Hq : 0 <= slen text / max_characters).
  { apply Z.div_pos; [apply slen_nonneg | exact Hpos]. }
  assert (Hband : forall lo hi (A : Type) (chunks : list A),
             1 <= lo -> lo <= len chunks <= hi ->
             check_for_fallback_chunking_usage lo hi chunks = false).
  { intros lo hi A chunks Hlo Hin. unfold check_for_fallback_chunking_usage.
    assert (lo / 2 <= lo) by (apply Z.div_le_upper_bound; lia).
    destruct (Z.ltb_spec (len chunks) (lo / 2)); [lia|].
    destruct (Z.gtb_spec (len chunks) (hi * 2)); [lia | reflexivity]. }
  destruct (Z.ltb_spec (slen text / max_characters + 1) 2).
  - exists 1, 2. split; [reflexivity|]. split; [lia|]. split; [lia|].
    intros A chunks Hin. apply Hband; lia.
  - eexists _, _. split; [reflexivity|]. split; [lia|]. split; [lia|].
    intros A chunks Hin. apply Hband; lia.
Qed.

Lemma band_never_triggers_fallback_witness :
  exists min_num_chunks max_num_chunks,
    get_target_num_chunks text_46 20 = Ok (min_num_chunks, max_num_chunks)
    /\ 1 <= min_num_chunks < max_num_chunks
    /\ max_num_chunks <= min_num_chunks + 2
    /\ forall (A : Type) (chunks : list A),
        min_num_chunks <= len chunks <= max_num_chunks ->
        check_for_fallback_chunking_usage min_num_chunks max_num_chunks chunks
        = false.
Proof. apply (band_never_triggers_fallback text_46 20). lia. Defined.

(** ** Segments to chunks *)

Section SegmentFacts.

Variables llm_provider model : string.
Variable get_structured_chunks :
  string -> Z -> Z -> Z -> string -> string -> result (list Chunk).
Variable split_text : string -> list string.

Local Abbreviation segment_chunks' :=
  (segment_chunks llm_provider model get_structured_chunks split_text).
Local Abbreviation get_chunks_from_segments' :=
  (get_chunks_from_segments llm_provider model get_structured_chunks split_text).

(** What one segment adds is inserted between what the segments before
    and after it add. *)
Lemma get_chunks_from_segments_insert (pre post : list SectionDict)
    (segment : SectionDict) (document_lines : list string)
    (chunks_pre chunk_dicts chunks_post : list ChunkDict)
    (calls_pre calls calls_post : list call) :
  get_chunks_from_segments' pre document_lines = Ok (chunks_pre, calls_pre) ->
  segment_chunks' segment document_lines = Ok (chunk_dicts, calls) ->
  get_chunks_from_segments' post document_lines = Ok (chunks_post, calls_post) ->
  get_chunks_from_segments' (pre ++ segment :: post) document_lines
  = Ok ((chunks_pre ++ chunk_dicts ++ chunks_post)%list,
        (calls_pre ++ calls ++ calls_post)%list).
Proof.
  intros Hpre Hseg Hpost. unfold get_chunks_from_segments in *.
  rewrite chunks_loop_app, Hpre. cbn [bind chunks_loop].
  rewrite Hseg. cbn [bind]. rewrite chunks_loop_acc, Hpost. cbn [bind].
  now rewrite <- !app_assoc.
Qed.

(** A segment that fails makes the whole call fail with the same
    exception; the chunks of the segments before it are lost. *)
Lemma get_chunks_from_segments_raise (pre post : list SectionDict)
    (segment : SectionDict) (document_lines : list string)
    (chunks_pre : list ChunkDict) (calls_pre : list call) (e : exn) :
  get_chunks_from_segments' pre document_lines = Ok (chunks_pre, calls_pre) ->
  segment_chunks' segment document_lines = Raise e ->
  get_chunks_from_segments' (pre ++ segment :: post) document_lines = Raise e.
Proof.
  intros Hpre Hseg. unfold get_chunks_from_segments in *.
  rewrite chunks_loop_app, Hpre. cbn [bind chunks_loop].
  now rewrite Hseg.
Qed.

Lemma segment_numbered_ok (segment : SectionDict)
    (document_lines : list string) :
  addressable document_lines (sd_start segment) (sd_end segment) ->
  annotate_loop document_lines
    (range (sd_start segment) (sd_end segment + 1)) ""
  = Ok (segment_numbered document_lines segment)
  /\ content_loop document_lines
       (range (sd_start segment) (sd_end segment + 1)) ""
     = Ok (plain_text document_lines
             (range (sd_start segment) (sd_end segment + 1))).
Proof.
  intros Haddr.
  assert (Hin : forall i,
             In i (range (sd_start segment) (sd_end segment + 1)) ->
             - len document_lines <= i < len document_lines).
  { intros i Hi. apply in_range in Hi. apply Haddr. lia. }
  rewrite annotate_loop_in_range, content_loop_in_range by exact Hin.
  split; reflexivity.
Qed.

(** Over the threshold the requested band is [(q, q + 2)] with
    [q = len(text) // 2000]. *)
Lemma large_segment_band (text : string) :
  2000 <= slen text ->
  get_target_num_chunks text 2000
  = Ok (slen text / 2000, slen text / 2000 + 2)
  /\ 1 <= slen text / 2000.
Proof.
  intros H. assert (Hq : 1 <= slen text / 2000).
  { apply Z.div_le_lower_bound; lia. }
  split; [|exact Hq]. unfold get_target_num_chunks, floordiv.
  cbn [Z.eqb bind].
  destruct (Z.ltb_spec (slen text / 2000 + 1) 2); [lia|].
  f_equal. f_equal; lia.
Qed.

(** When every segment is under the threshold and addresses lines of the
    document, the result is one whole chunk per segment, in order, and no
    request leaves the module: the provider, the model and the oracle are
    never consulted. *)
Theorem small_segments_need_no_oracle (segments : list SectionDict)
    (document_lines : list string) :
  Forall (fun segment =>
            addressable document_lines (sd_start segment) (sd_end segment)
            /\ slen (segment_numbered document_lines segment) < 2000)
    segments ->
  get_chunks_from_segments' segments document_lines
  = Ok (map (whole_chunk document_lines) segments, []).
Proof.
  intros Hall. unfold get_chunks_from_segments.
  induction Hall as [|segment rest (Haddr & Hsmall) _ IH]; [reflexivity|].
  cbn [chunks_loop map].
  rewrite (segment_chunks_small llm_provider model get_structured_chunks
             split_text segment document_lines Haddr Hsmall).
  cbn [bind app]. rewrite chunks_loop_acc, IH. reflexivity.
Qed.

(** A segment with a position that addresses no line makes the whole
    call raise IndexError, before any request for that segment. *)
Theorem segment_outside_document_raises (pre post : list SectionDict)
    (segment : SectionDict) (document_lines : list string)
    (chunks_pre : list ChunkDict) (calls_pre : list call) (i : Z) :
  get_chunks_from_segments' pre document_lines = Ok (chunks_pre, calls_pre) ->
  sd_start segment <= i <= sd_end segment ->
  i < - len document_lines \/ len document_lines <= i ->
  get_chunks_from_segments' (pre ++ segment :: post) document_lines
  = Raise IndexError.
Proof.
  intros Hpre Hi Hout.
  apply (get_chunks_from_segments_raise pre post segment document_lines
           chunks_pre calls_pre IndexError Hpre).
  unfold segment_chunks. rewrite annotate_loop_outside; [reflexivity|].
  exists i. split; [apply range_in; lia | exact Hout].
Qed.

(** An empty answer of the oracle is accepted for a segment of 2000 to
    3999 numbered characters: the band is (1, 3), whose lower limit
    [1 // 2] is 0, so no fallback is taken and the segment contributes no
    chunk at all. *)
Theorem empty_answer_drops_segment (pre post : list SectionDict)
    (segment : SectionDict) (document_lines : list string)
    (chunks_pre chunks_post : list ChunkDict) (calls_pre calls_post : list call) :
  addressable document_lines (sd_start segment) (sd_end segment) ->
  2000 <= slen (segment_numbered document_lines segment) < 4000 ->
  get_structured_chunks (segment_numbered document_lines segment)
    (sd_start segment) 1 3 llm_provider model = Ok [] ->
  get_chunks_from_segments' pre document_lines = Ok (chunks_pre, calls_pre) ->
  get_chunks_from_segments' post document_lines = Ok (chunks_post, calls_post) ->
  get_chunks_from_segments' (pre ++ segment :: post) document_lines
  = Ok ((chunks_pre ++ chunks_post)%list,
        (calls_pre
         ++ [ChunkOracleCall (segment_numbered document_lines segment)
               (sd_start segment) 1 3]
         ++ calls_post)%list).
Proof.
  intros Haddr Hsize Horacle Hpre Hpost.
  apply (get_chunks_from_segments_insert pre post segment document_lines
           chunks_pre [] chunks_post calls_pre _ calls_post Hpre);
    [|exact Hpost].
  unfold segment_chunks.
  destruct (segment_numbered_ok segment document_lines Haddr) as (-> & _).
  cbn [bind].
  destruct (Z.ltb_spec (slen (segment_numbered document_lines segment)) 2000);
    [lia|].
  destruct (large_segment_band (segment_numbered document_lines segment))
    as (Hband & _); [lia|].
  assert (Hq : slen (segment_numbered document_lines segment) / 2000 = 1).
  { symmetry. apply Z.div_unique with
      (r := slen (segment_numbered document_lines segment) - 2000); lia. }
  rewrite Hq in Hband. rewrite Hband. cbn [bind Z.add Pos.add].
  rewrite Horacle. reflexivity.
Qed.

(** When the fallback is taken for a segment over the threshold, its
    chunks are the pieces that the splitter cuts from the segment's plain
    text, each under the segment's title; the chunk starts proposed by
    the oracle are not used. *)
Theorem fallback_uses_splitter_only (pre post : list SectionDict)
    (segment : SectionDict) (document_lines : list string)
    (new_chunks : list Chunk)
    (chunks_pre chunks_post : list ChunkDict) (calls_pre calls_post : list call) :
  let text := segment_numbered document_lines segment in
  let min_num_chunks := slen text / 2000 in
  let max_num_chunks := slen text / 2000 + 2 in
  let document_text :=
    plain_text document_lines (range (sd_start segment) (sd_end segment + 1)) in
  addressable document_lines (sd_start segment) (sd_end segment) ->
  2000 <= slen text ->
  get_structured_chunks text (sd_start segment) min_num_chunks max_num_chunks
    llm_provider model = Ok new_chunks ->
  len new_chunks < min_num_chunks / 2 \/ len new_chunks > max_num_chunks * 2 ->
  get_chunks_from_segments' pre document_lines = Ok (chunks_pre, calls_pre) ->
  get_chunks_from_segments' post document_lines = Ok (chunks_post, calls_post) ->
  get_chunks_from_segments' (pre ++ segment :: post) document_lines
  = Ok ((chunks_pre
         ++ map (mkChunkDict (sd_title segment)) (split_text document_text)
         ++ chunks_post)%list,
        (calls_pre
         ++ [ChunkOracleCall text (sd_start segment) min_num_chunks
               max_num_chunks;
             SplitterCall document_text]
         ++ calls_post)%list).
Proof.
  intros text min_num_chunks max_num_chunks document_text
    Haddr Hsize Horacle Hout Hpre Hpost.
  subst text min_num_chunks max_num_chunks document_text.
  apply (get_chunks_from_segments_insert pre post segment document_lines
           chunks_pre _ chunks_post calls_pre _ calls_post Hpre);
    [|exact Hpost].
  unfold segment_chunks.
  destruct (segment_numbered_ok segment document_lines Haddr) as (-> & ->).
  cbn [bind].
  destruct (Z.ltb_spec (slen (segment_numbered document_lines segment)) 2000);
    [lia|].
  destruct (large_segment_band _ Hsize) as (-> & _). cbn [bind].
  rewrite Horacle. cbn [bind].
  assert (Hfallback :
            check_for_fallback_chunking_usage
              (slen (segment_numbered document_lines segment) / 2000)
              (slen (segment_numbered document_lines segment) / 2000 + 2)
              new_chunks = true).
  { unfold check_for_fallback_chunking_usage.
    destruct (Z.ltb_spec (len new_chunks)
                (slen (segment_numbered document_lines segment) / 2000 / 2));
      [reflexivity|].
    destruct (Z.gtb_spec (len new_chunks)
                ((slen (segment_numbered document_lines segment) / 2000 + 2)
                 * 2));
      [reflexivity | lia]. }
  rewrite Hfallback. reflexivity.
Qed.

End SegmentFacts.

Lemma small_segments_need_no_oracle_witness :
  get_chunks_from_segments "no such provider" "gpt-4o-mini"
    (fun _ _ _ _ _ _ => Raise ValueError) no_split
    [mkSectionDict "A" "l0" 0 1; mkSectionDict "B" "l2" 2 3] four_lines
  = Ok (map (whole_chunk four_lines)
          [mkSectionDict "A" "l0" 0 1; mkSectionDict "B" "l2" 2 3], []).
Proof.
  apply (small_segments_need_no_oracle "no such provider" "gpt-4o-mini"
           (fun _ _ _ _ _ _ => Raise ValueError) no_split).
  apply Forall_cons; [split | apply Forall_cons; [split | apply Forall_nil]];
    first [ apply Z.ltb_lt; vm_compute; reflexivity
          | intros i Hi; cbn [sd_start sd_end] in Hi;
            change (len four_lines) with 4; lia ].
Defined.

Lemma segment_outside_document_raises_witness :
  get_chunks_from_segments "openai" "gpt-4o-mini" one_chunk_oracle no_split
    ([mkSectionDict "A" "l0" 0 1] ++ mkSectionDict "B" "l2" 2 4 :: [])
    four_lines
  = Raise IndexError.
Proof.
  apply (segment_outside_document_raises "openai" "gpt-4o-mini"
           one_chunk_oracle no_split [mkSectionDict "A" "l0" 0 1] []
           (mkSectionDict "B" "l2" 2 4) four_lines
           [mkChunkDict "A" ("l0" ++ nl ++ "l1" ++ nl)%string] [] 4).
  - vm_compute. reflexivity.
  - cbn [sd_start sd_end]. lia.
  - right. change (len four_lines) with 4. lia.
Defined.

Lemma empty_answer_drops_segment_witness :
  get_chunks_from_segments "openai" "gpt-4o-mini"
    (fun _ _ _ _ _ _ => Ok []) no_split
    ([] ++ mkSectionDict "A" "" 0 0 :: [mkSectionDict "B" "" 1 1])
    long_document
  = Ok (([] ++ [mkChunkDict "B" ("tail" ++ nl)%string])%list,
        ([] ++ [ChunkOracleCall
                  (segment_numbered long_document (mkSectionDict "A" "" 0 0))
                  (sd_start (mkSectionDict "A" "" 0 0)) 1 3] ++ [])%list).
Proof.
  apply (empty_answer_drops_segment "openai" "gpt-4o-mini"
           (fun _ _ _ _ _ _ => Ok []) no_split [] [mkSectionDict "B" "" 1 1]
           (mkSectionDict "A" "" 0 0) long_document
           [] [mkChunkDict "B" ("tail" ++ nl)%string] [] []).
  - intros i Hi. cbn [sd_start sd_end] in Hi.
    change (len long_document) with 2. lia.
  - split; [apply Z.leb_le | apply Z.ltb_lt]; vm_compute; reflexivity.
  - reflexivity.
  - reflexivity.
  - vm_compute. reflexivity.
Defined.

Lemma fallback_uses_splitter_only_witness :
  get_chunks_from_segments "openai" "gpt-4o-mini"
    (fun _ _ _ _ _ _ => Ok []) no_split
    ([] ++ mkSectionDict "A" "" 0 1 :: [])
    [replicate 2000 "x"%char; replicate 2000 "y"%char]
  = Ok (([] ++ map (mkChunkDict "A")
                 (no_split
                    (plain_text
                       [replicate 2000 "x"%char; replicate 2000 "y"%char]
                       (range 0 (1 + 1)))) ++ [])%list,
        ([] ++ [ChunkOracleCall
                  (segment_numbered
                     [replicate 2000 "x"%char; replicate 2000 "y"%char]
                     (mkSectionDict "A" "" 0 1)) 0
                  (slen (segment_numbered
                           [replicate 2000 "x"%char; replicate 2000 "y"%char]
                           (mkSectionDict "A" "" 0 1)) / 2000)
                  (slen (segment_numbered
                           [replicate 2000 "x"%char; replicate 2000 "y"%char]
                           (mkSectionDict "A" "" 0 1)) / 2000 + 2);
                SplitterCall
                  (plain_text
                     [replicate 2000 "x"%char; replicate 2000 "y"%char]
                     (range 0 (1 + 1)))] ++ [])%list).
Proof.
  apply (fallback_uses_splitter_only "openai" "gpt-4o-mini"
           (fun _ _ _ _ _ _ => Ok []) no_split [] []
           (mkSectionDict "A" "" 0 1)
           [replicate 2000 "x"%char; replicate 2000 "y"%char] []
           [] [] [] []).
  - intros i Hi. cbn [sd_start sd_end] in Hi.
    change (len [replicate 2000 "x"%char; replicate 2000 "y"%char]) with 2.
    lia.
  - apply Z.leb_le. vm_compute. reflexivity.
  - reflexivity.
  - left. apply Z.ltb_lt. vm_compute. reflexivity.
  - reflexivity.
  - reflexivity.
Defined.

(** ** Windows *)

Lemma raw_length_nonneg (document_lines : list string) (idxs : list Z) :
  0 <= raw_length document_lines idxs.
Proof.
  induction idxs as [|i idxs IH]; cbn [raw_length]; [lia|].
  pose proof (slen_nonneg (line_at document_lines i)). lia.
Qed.

Lemma raw_length_app (document_lines : list string) (xs ys : list Z) :
  raw_length document_lines (xs ++ ys)
  = raw_length document_lines xs + raw_length document_lines ys.
Proof.
  induction xs as [|i xs IH]; cbn [raw_length app]; [reflexivity|].
  rewrite IH. lia.
Qed.

(** What is left of the document from line [s] on splits at the end of
    a window. *)
Lemma raw_length_rest (document_lines : list string) (s e : Z) :
  s <= e + 1 <= len document_lines ->
  raw_length document_lines (range s (len document_lines))
  = raw_length document_lines (range s (e + 1))
    + raw_length document_lines (range (e + 1) (len document_lines)).
Proof.
  intros H. rewrite (range_app s (e + 1) (len document_lines)) by lia.
  apply raw_length_app.
Qed.

(** A window opened at a line of the document always returns: it ends at
    the last line, or it holds more than [max_characters] raw
    characters. *)
Lemma window_opens (document_lines : list string) (max_characters s : Z) :
  0 <= s < len document_lines ->
  exists text e,
    get_document_with_lines document_lines s max_characters = Ok (text, e)
    /\ s <= e <= len document_lines - 1
    /\ text = numbered_text document_lines (range s (e + 1))
    /\ (raw_length document_lines (range s (e + 1)) > max_characters
        \/ e = len document_lines - 1).
Proof.
  intros Hs. unfold get_document_with_lines.
  destruct (window_loop_stops document_lines max_characters
              (Z.to_nat (len document_lines - s)) s "" 0)
    as (e & Hrun & Hrange & Hlast & _); try lia.
  exists (numbered_text document_lines (range s (e + 1))), e.
  split; [exact Hrun|]. split; [exact Hrange|]. split; [reflexivity|]. lia.
Qed.

(** When the lines of the document together hold no more than
    [max_characters] raw characters, the window opened at line 0 is the
    whole numbered document and ends at the last line. *)
Theorem whole_document_window (document_lines : list string)
    (max_characters : Z) :
  document_lines <> [] ->
  raw_length document_lines (all_lines document_lines) <= max_characters ->
  get_document_with_lines document_lines 0 max_characters
  = Ok (numbered_text document_lines (all_lines document_lines),
        len document_lines - 1).
Proof.
  intros Hne Hfit. unfold all_lines in *.
  assert (Hlen : 0 < len document_lines).
  { destruct document_lines; [contradiction|].
    unfold len. cbn [List.length]. lia. }
  destruct (window_opens document_lines max_characters 0)
    as (text & e & Hrun & Hrange & Htext & Hlast); [lia|].
  assert (He : e = len document_lines - 1).
  { destruct Hlast as [Hover|He]; [|exact He].
    pose proof (raw_length_rest document_lines 0 e ltac:(lia)) as Hsplit.
    pose proof (raw_length_nonneg document_lines
                  (range (e + 1) (len document_lines))).
    lia. }
  rewrite Hrun, Htext, He.
  replace (len document_lines - 1 + 1) with (len document_lines) by lia.
  reflexivity.
Qed.

Lemma whole_document_window_witness :
  get_document_with_lines three_lines 0 7
  = Ok (numbered_text three_lines (all_lines three_lines),
        len three_lines - 1).
Proof.
  apply (whole_document_window three_lines 7);
    [discriminate | apply Z.leb_le; vm_compute; reflexivity].
Defined.

(** ** The walker and its oracle *)

Section WalkerMore.

Variables llm_provider model : string.
Variable oracle :
  string -> Z -> Z -> string -> string -> result (list Section_).

Local Abbreviation walk_loop' := (walk_loop llm_provider model oracle).
Local Abbreviation get_sections' := (get_sections llm_provider model oracle).

Lemma document_has_lines (document : string) :
  0 < len (get_document_lines document).
Proof.
  unfold get_document_lines.
  destruct (split_lines_cons document) as (line & rest & ->).
  unfold len. cbn [List.length]. lia.
Qed.

(** With a positive budget the cap allows at least
    [len(document) // max_characters + 1 >= 1] iterations twice over. *)
Lemma cap_positive (document : string) (max_characters : Z) :
  0 < max_characters ->
  floordiv (slen document) max_characters
  = Ok (slen document / max_characters)
  /\ 0 <= slen document / max_characters
  /\ exists k,
      Z.to_nat (2 * (slen document / max_characters + 1)) = S (S k).
Proof.
  intros Hpos. unfold floordiv.
  destruct (Z.eqb_spec max_characters 0) as [E|_]; [lia|].
  assert (Hq : 0 <= slen document / max_characters).
  { apply Z.div_pos; [apply slen_nonneg | exact Hpos]. }
  split; [reflexivity|]. split; [exact Hq|].
  exists (Z.to_nat (2 * (slen document / max_characters + 1)) - 2)%nat. lia.
Qed.

(** A document that fits in one window costs one request, and the
    result is the oracle's answer for the whole numbered document,
    materialised by [get_sections_text]. *)
Theorem get_sections_single_window (document : string) (max_characters : Z)
    (new_sections : list Section_) :
  let document_lines := get_document_lines document in
  0 < max_characters ->
  raw_length document_lines (all_lines document_lines) <= max_characters ->
  oracle (numbered_text document_lines (all_lines document_lines)) 0
    (len document_lines - 1) llm_provider model = Ok new_sections ->
  get_sections' document max_characters
  = Ok (get_sections_text new_sections document_lines, document_lines).
Proof.
  intros document_lines Hpos Hfit Horacle. subst document_lines.
  unfold get_sections.
  destruct (cap_positive document max_characters Hpos)
    as (Hdiv & _ & k & Hcap).
  rewrite Hdiv. cbn [bind]. rewrite Hcap. cbn [bind walk_loop].
  rewrite whole_document_window;
    [|pose proof (document_has_lines document) as H;
      destruct (get_document_lines document); [cbn in H; lia | discriminate]
     |exact Hfit].
  cbn [bind]. rewrite Horacle. cbn [bind app].
  destruct (Z.geb_spec (len (get_document_lines document) - 1)
              (len (get_document_lines document) - 1)); [reflexivity | lia].
Qed.

(** With a negative budget and a non-empty document the cap is zero or
    less: the loop body never runs, the oracle is never asked, and the
    result is an empty section list. *)
Theorem get_sections_negative_budget (document : string)
    (max_characters : Z) :
  max_characters < 0 -> document <> "" ->
  get_sections' document max_characters
  = Ok ([], get_document_lines document).
Proof.
  intros Hneg Hne. unfold get_sections, floordiv.
  destruct (Z.eqb_spec max_characters 0) as [E|_]; [lia|]. cbn [bind].
  assert (Hlen : 0 < slen document).
  { destruct document; [contradiction|]. unfold slen. cbn [String.length]. lia. }
  assert (Hq : slen document / max_characters < 0).
  { rewrite <- Z.div_opp_opp by lia.
    apply Z.div_lt_upper_bound; lia. }
  replace (Z.to_nat (2 * (slen document / max_characters + 1))) with 0%nat
    by lia.
  reflexivity.
Qed.

(** With a positive budget the first window is always submitted, and an
    exception of the oracle on it is the exception of [get_sections]. *)
Lemma get_sections_first_request_fails (document : string)
    (max_characters : Z) (e : exn) :
  0 < max_characters ->
  (forall text end_line,
      oracle text 0 end_line llm_provider model = Raise e) ->
  get_sections' document max_characters = Raise e.
Proof.
  intros Hpos Horacle. unfold get_sections.
  destruct (cap_positive document max_characters Hpos)
    as (Hdiv & _ & k & Hcap).
  rewrite Hdiv. cbn [bind]. rewrite Hcap. cbn [bind walk_loop].
  destruct (window_opens (get_document_lines document) max_characters 0)
    as (text & end_line & -> & _);
    [pose proof (document_has_lines document); lia|].
  cbn [bind]. now rewrite Horacle.
Qed.

(** When the first window stops before the last line and the oracle's
    last section for it starts past the document, the next window cannot
    be opened and [get_sections] fails with UnboundLocalError; when that
    start lies below [-len(document_lines)] it fails with IndexError. *)
Theorem get_sections_restart_outside_document (document : string)
    (max_characters : Z) (text : string) (end_line : Z)
    (init : list Section_) (last_section : Section_) :
  let document_lines := get_document_lines document in
  0 < max_characters ->
  get_document_with_lines document_lines 0 max_characters
  = Ok (text, end_line) ->
  end_line < len document_lines - 1 ->
  oracle text 0 end_line llm_provider model
  = Ok (init ++ [last_section])%list ->
  init <> [] ->
  (len document_lines <= start_index last_section ->
   get_sections' document max_characters = Raise UnboundLocalError)
  /\ (start_index last_section < - len document_lines ->
      get_sections' document max_characters = Raise IndexError).
Proof.
  intros document_lines Hpos Hwin Hend Horacle Hinit. subst document_lines.
  assert (Hlen : (len (init ++ [last_section])%list >? 1) = true).
  { apply Z.gtb_lt. unfold len. rewrite length_app. cbn [List.length].
    destruct init; [contradiction | cbn [List.length]; lia]. }
  assert (Hrun : forall k,
             walk_loop' (S (S k)) (get_document_lines document)
               max_characters 0 []
             = walk_loop' (S k) (get_document_lines document) max_characters
                 (start_index last_section) init).
  { intros k. cbn [walk_loop]. rewrite Hwin. cbn [bind].
    rewrite Horacle. cbn [bind app].
    destruct (Z.geb_spec end_line (len (get_document_lines document) - 1));
      [lia|].
    rewrite Hlen, rev_app_distr. cbn [rev app].
    now rewrite removelast_last. }
  split; intros Hout; unfold get_sections;
    destruct (cap_positive document max_characters Hpos)
      as (Hdiv & _ & k & Hcap);
    rewrite Hdiv; cbn [bind]; rewrite Hcap, Hrun; cbn [walk_loop];
    unfold get_document_with_lines.
  - now rewrite range_empty by lia.
  - rewrite range_cons by (pose proof (len_nonneg (get_document_lines document)); lia).
    cbn [window_loop]. now rewrite index_below by lia.
Qed.

End WalkerMore.

Lemma get_sections_single_window_witness :
  get_sections "openai" "gpt-4o-mini" stuck_oracle stuck_document 6
  = Ok (get_sections_text [mkSection "x" 0 0; mkSection "y" 0 2]
          (get_document_lines stuck_document),
        get_document_lines stuck_document).
Proof.
  apply (get_sections_single_window "openai" "gpt-4o-mini" stuck_oracle
           stuck_document 6 [mkSection "x" 0 0; mkSection "y" 0 2]);
    [lia | apply Z.leb_le; vm_compute; reflexivity | reflexivity].
Defined.

Lemma get_sections_negative_budget_witness :
  get_sections "openai" "gpt-4o-mini" stuck_oracle stuck_document (-3)
  = Ok ([], get_document_lines stuck_document).
Proof.
  apply (get_sections_negative_budget "openai" "gpt-4o-mini" stuck_oracle
           stuck_document (-3)); [lia | discriminate].
Defined.

Lemma get_sections_restart_outside_document_witness :
  get_sections "openai" "gpt-4o-mini"
    (fun _ start_line _ _ _ =>
       Ok [mkSection "x" start_line start_line; mkSection "y" 7 9])
    stuck_document 3
  = Raise UnboundLocalError.
Proof.
  destruct (get_sections_restart_outside_document "openai" "gpt-4o-mini"
              (fun _ start_line _ _ _ =>
                 Ok [mkSection "x" start_line start_line; mkSection "y" 7 9])
              stuck_document 3 ("[0] aa" ++ nl ++ "[1] bb" ++ nl)%string 1
              [mkSection "x" 0 0] (mkSection "y" 7 9))
    as (Hpast & _);
    [lia | reflexivity | vm_compute; reflexivity | reflexivity | discriminate|].
  apply Hpast. apply Z.leb_le. vm_compute. reflexivity.
Defined.

(** ** Provider dispatch *)

Section ProviderFacts.

Variable system_prompt : Z -> Z -> string.
Variable chunk_system_prompt : Z -> Z -> Z -> string.
Variable anthropic_document :
  string -> Z -> string -> list (string * string) -> result StructuredDocument.
Variable anthropic_chunks :
  string -> Z -> string -> list (string * string) -> result StructuredChunk.
Variable openai_document :
  string -> Z -> list (string * string) -> result StructuredDocument.
Variable openai_chunks :
  string -> Z -> list (string * string) -> result StructuredChunk.

Local Abbreviation document_oracle' :=
  (document_oracle system_prompt anthropic_document openai_document).
Local Abbreviation chunk_oracle' :=
  (chunk_oracle chunk_system_prompt anthropic_chunks openai_chunks).

Lemma unknown_provider_document (llm_provider model text : string)
    (start_line end_line : Z) :
  llm_provider <> "anthropic" -> llm_provider <> "openai" ->
  document_oracle' text start_line end_line llm_provider model
  = Raise ValueError.
Proof.
  intros Ha Ho. unfold document_oracle, get_structured_document.
  apply String.eqb_neq in Ha, Ho. now rewrite Ha, Ho.
Qed.

Lemma unknown_provider_chunk (llm_provider model text : string)
    (start_line min_chunks max_chunks : Z) :
  llm_provider <> "anthropic" -> llm_provider <> "openai" ->
  chunk_oracle' text start_line min_chunks max_chunks llm_provider model
  = Raise ValueError.
Proof.
  intros Ha Ho. unfold chunk_oracle, get_structured_chunks.
  apply String.eqb_neq in Ha, Ho. now rewrite Ha, Ho.
Qed.

(** With a provider other than "anthropic" and "openai" and a positive
    budget, [get_sections] raises ValueError for every document, the
    empty one included: the first window is always submitted. *)
Theorem get_sections_unknown_provider (llm_provider model document : string)
    (max_characters : Z) :
  llm_provider <> "anthropic" -> llm_provider <> "openai" ->
  0 < max_characters ->
  get_sections llm_provider model document_oracle' document max_characters
  = Raise ValueError.
Proof.
  intros Ha Ho Hpos. apply get_sections_first_request_fails; [exact Hpos|].
  intros text end_line. now apply unknown_provider_document.
Qed.

(** With a provider other than "anthropic" and "openai",
    [get_chunks_from_segments] raises ValueError at the first segment
    that reaches the 2000-character threshold; the splitter is not tried
    in its place. *)
Theorem get_chunks_unknown_provider (llm_provider model : string)
    (split_text : string -> list string) (pre post : list SectionDict)
    (segment : SectionDict) (document_lines : list string)
    (chunks_pre : list ChunkDict) (calls_pre : list call) :
  llm_provider <> "anthropic" -> llm_provider <> "openai" ->
  get_chunks_from_segments llm_provider model chunk_oracle' split_text pre
    document_lines = Ok (chunks_pre, calls_pre) ->
  addressable document_lines (sd_start segment) (sd_end segment) ->
  2000 <= slen (segment_numbered document_lines segment) ->
  get_chunks_from_segments llm_provider model chunk_oracle' split_text
    (pre ++ segment :: post) document_lines
  = Raise ValueError.
Proof.
  intros Ha Ho Hpre Haddr Hsize.
  apply (get_chunks_from_segments_raise llm_provider model chunk_oracle'
           split_text pre post segment document_lines chunks_pre calls_pre
           ValueError Hpre).
  unfold segment_chunks.
  destruct (segment_numbered_ok segment document_lines Haddr) as (-> & _).
  cbn [bind].
  destruct (Z.ltb_spec (slen (segment_numbered document_lines segment)) 2000);
    [lia|].
  destruct (large_segment_band _ Hsize) as (-> & _). cbn [bind].
  now rewrite unknown_provider_chunk.
Qed.

End ProviderFacts.

Lemma get_sections_unknown_provider_witness :
  get_sections "mistral" "gpt-4o-mini"
    (document_oracle (fun _ _ => "") (fun _ _ _ _ => Raise IndexError)
       (fun _ _ _ => Raise IndexError))
    "" 20000
  = Raise ValueError.
Proof.
  apply (get_sections_unknown_provider (fun _ _ => "")
           (fun _ _ _ _ => Raise IndexError) (fun _ _ _ => Raise IndexError)
           "mistral" "gpt-4o-mini" "" 20000); [discriminate | discriminate | lia].
Defined.

Lemma get_chunks_unknown_provider_witness :
  get_chunks_from_segments "mistral" "gpt-4o-mini"
    (chunk_oracle (fun _ _ _ => "") (fun _ _ _ _ => Raise IndexError)
       (fun _ _ _ => Raise IndexError))
    no_split ([] ++ mkSectionDict "A" "" 0 0 :: []) long_document
  = Raise ValueError.
Proof.
  apply (get_chunks_unknown_provider (fun _ _ _ => "")
           (fun _ _ _ _ => Raise IndexError) (fun _ _ _ => Raise IndexError)
           "mistral" "gpt-4o-mini" no_split [] [] (mkSectionDict "A" "" 0 0)
           long_document [] []);
    [discriminate | discriminate | reflexivity | |].
  - intros i Hi. cbn [sd_start sd_end] in Hi.
    change (len long_document) with 2. lia.
  - apply Z.leb_le. vm_compute. reflexivity.
Defined.

(** ** The iteration cap against an oracle that answers one section *)

Section WalkerCap.

Variables llm_provider model : string.
Variable oracle :
  string -> Z -> Z -> string -> string -> result (list Section_).
Variable document_lines : list string.
Variable max_characters : Z.

Local Abbreviation walk_loop' := (walk_loop llm_provider model oracle).

Hypothesis budget_positive : 0 < max_characters.

(** The oracle answers every window, with at most one section. *)
Hypothesis one_section :
  forall text start_line end_line,
  exists new_sections,
    oracle text start_line end_line llm_provider model = Ok new_sections
    /\ len new_sections <= 1.

(** Every window that stops before the last line uses up more than
    [max_characters] of the raw characters that are left, so
    [left // max_characters + 1] iterations reach the last line, and
    more iterations change nothing. *)
Lemma walk_loop_reaches_end (n : nat) :
  forall (start_line : Z) (all_sections : list Section_),
    0 <= start_line < len document_lines ->
    raw_length document_lines (range start_line (len document_lines))
    / max_characters + 1 <= Z.of_nat n ->
    exists out,
      forall m, (n <= m)%nat ->
        walk_loop' m document_lines max_characters start_line all_sections
        = Ok out.
Proof.
  induction n as [|n IH]; intros start_line all_sections Hs Hfuel.
  - pose proof (raw_length_nonneg document_lines
                  (range start_line (len document_lines))) as Hleft.
    pose proof (Z.div_pos _ _ Hleft budget_positive). lia.
  - destruct (window_opens document_lines max_characters start_line Hs)
      as (text & e & Hwin & Hrange & _ & Hlast).
    destruct (one_section text start_line e) as (new_sections & Horacle & Hone).
    destruct (Z.geb_spec e (len document_lines - 1)) as [Hend|Hmore].
    + exists (all_sections ++ new_sections)%list. intros [|m] Hm; [lia|].
      cbn [walk_loop]. rewrite Hwin. cbn [bind]. rewrite Horacle. cbn [bind].
      destruct (Z.geb_spec e (len document_lines - 1)); [reflexivity | lia].
    + destruct Hlast as [Hover|He]; [|lia].
      pose proof (raw_length_rest document_lines start_line e ltac:(lia))
        as Hsplit.
      pose proof (raw_length_nonneg document_lines
                    (range (e + 1) (len document_lines))) as Hleft.
      assert (Hless :
                raw_length document_lines (range (e + 1) (len document_lines))
                / max_characters + 1
                <= raw_length document_lines
                     (range start_line (len document_lines))
                   / max_characters).
      { rewrite <- (Z.div_add _ 1 max_characters) by lia.
        apply Z.div_le_mono; lia. }
      destruct (IH (e + 1) (all_sections ++ new_sections)%list) as (out & Hout);
        [lia | lia |].
      exists out. intros [|m] Hm; [lia|].
      cbn [walk_loop]. rewrite Hwin. cbn [bind]. rewrite Horacle. cbn [bind].
      destruct (Z.geb_spec e (len document_lines - 1)); [lia|].
      destruct (Z.gtb_spec (len new_sections) 1); [lia|].
      apply Hout. lia.
Qed.

End WalkerCap.

(** With a positive budget and an oracle that answers every window with
    at most one section, [get_sections] never fails and its iteration cap
    is never what stops it: [len(document) // max_characters + 1]
    iterations, half of the cap, already give its section list, and so
    does any larger number of iterations. *)
Theorem get_sections_cap_suffices (llm_provider model : string)
    (oracle : string -> Z -> Z -> string -> string -> result (list Section_))
    (document : string) (max_characters : Z) :
  0 < max_characters ->
  (forall text start_line end_line,
    exists new_sections,
      oracle text start_line end_line llm_provider model = Ok new_sections
      /\ len new_sections <= 1) ->
  exists all_sections,
    get_sections llm_provider model oracle document max_characters
    = Ok (get_sections_text all_sections (get_document_lines document),
          get_document_lines document)
    /\ forall n,
        (Z.to_nat (slen document / max_characters + 1) <= n)%nat ->
        walk_loop llm_provider model oracle n (get_document_lines document)
          max_characters 0 []
        = Ok all_sections.
Proof.
  intros Hpos Hone.
  pose proof (document_has_lines document) as Hlines.
  pose proof (split_lines_sum document) as Hlen.
  rewrite <- raw_length_all in Hlen.
  fold (get_document_lines document) in Hlen. unfold all_lines in Hlen.
  assert (Hq : 0 <= slen document / max_characters).
  { apply Z.div_pos; [apply slen_nonneg | exact Hpos]. }
  destruct (walk_loop_reaches_end llm_provider model oracle
              (get_document_lines document) max_characters Hpos Hone
              (Z.to_nat (slen document / max_characters + 1)) 0 [])
    as (all_sections & Hout).
  - lia.
  - assert (raw_length (get_document_lines document)
              (range 0 (len (get_document_lines document)))
            / max_characters <= slen document / max_characters)
      by (apply Z.div_le_mono; lia).
    lia.
  - exists all_sections. split; [|exact Hout].
    unfold get_sections, floordiv.
    destruct (Z.eqb_spec max_characters 0) as [E|_]; [lia|]. cbn [bind].
    rewrite Hout by lia. reflexivity.
Qed.

Lemma get_sections_cap_suffices_witness :
  exists all_sections,
    get_sections "openai" "gpt-4o-mini"
      (fun _ start_line end_line _ _ =>
         Ok [mkSection "window" start_line end_line])
      stuck_document 3
    = Ok (get_sections_text all_sections (get_document_lines stuck_document),
          get_document_lines stuck_document)
    /\ forall n,
        (Z.to_nat (slen stuck_document / 3 + 1) <= n)%nat ->
        walk_loop "openai" "gpt-4o-mini"
          (fun _ start_line end_line _ _ =>
             Ok [mkSection "window" start_line end_line])
          n (get_document_lines stuck_document) 3 0 []
        = Ok all_sections.
Proof.
  apply (get_sections_cap_suffices "openai" "gpt-4o-mini"
           (fun _ start_line end_line _ _ =>
              Ok [mkSection "window" start_line end_line])
           stuck_document 3); [lia|].
  intros text start_line end_line. eexists. split; [reflexivity|].
  vm_compute. discriminate.
Defined.

(** ** Chunks cut at the oracle's starts *)

Lemma plain_text_app (document_lines : list string) (xs ys : list Z) :
  plain_text document_lines (xs ++ ys)
  = (plain_text document_lines xs ++ plain_text document_lines ys)%string.
Proof.
  induction xs as [|i xs IH]; cbn [plain_text app]; [reflexivity|].
  now rewrite IH, !append_assoc.
Qed.

(** When the oracle's chunk starts are lines of the document in
    ascending order, the loop that trusts them returns one chunk per
    start, all under the segment's title, and the contents put end to
    end are the lines from the first start to the last line of the
    document. *)
Theorem oracle_chunks_cover_to_document_end (title : string)
    (document_lines : list string) (first : Chunk) (rest : list Chunk) :
  Forall (fun chunk => 0 <= chunk_start_index chunk < len document_lines)
    (first :: rest) ->
  (forall i chunk next,
      nth_error (first :: rest) i = Some chunk ->
      nth_error (first :: rest) (S i) = Some next ->
      chunk_start_index chunk <= chunk_start_index next) ->
  exists chunk_dicts,
    oracle_chunks_loop title document_lines (first :: rest) = Ok chunk_dicts
    /\ map cd_title chunk_dicts = map (fun _ => title) (first :: rest)
    /\ String.concat "" (map cd_content chunk_dicts)
       = plain_text document_lines
           (range (chunk_start_index first) (len document_lines)).
Proof.
  revert first. induction rest as [|next rest IH]; intros first Hin Hsorted.
  - inversion Hin as [|? ? Hfirst _]; subst.
    rewrite oracle_chunks_loop_last. unfold get_chunk_content.
    rewrite content_loop_in_range
      by (intros i Hi; apply in_range in Hi; lia).
    cbn [bind append]. eexists. split; [reflexivity|].
    split; [reflexivity|]. cbn [map cd_content String.concat].
    now replace (len document_lines - 1 + 1) with (len document_lines) by lia.
  - inversion Hin as [|? ? Hfirst Hrest]; subst.
    pose proof (Hsorted 0%nat first next eq_refl eq_refl) as Hle.
    assert (Hnext : 0 <= chunk_start_index next < len document_lines)
      by (inversion Hrest; assumption).
    destruct (IH next Hrest) as (more & Hmore & Htitles & Hcontents).
    { intros i chunk next' Hc Hn. exact (Hsorted (S i) chunk next' Hc Hn). }
    rewrite oracle_chunks_loop_inner. unfold get_chunk_content.
    rewrite content_loop_in_range
      by (intros i Hi; apply in_range in Hi; lia).
    cbn [bind append]. rewrite Hmore. cbn [bind].
    eexists. split; [reflexivity|]. split.
    + cbn [map cd_title]. now rewrite Htitles.
    + cbn [map cd_content].
      replace (chunk_start_index next - 1 + 1) with (chunk_start_index next)
        by lia.
      rewrite (range_app (chunk_start_index first) (chunk_start_index next)
                 (len document_lines)) by lia.
      rewrite plain_text_app, <- Hcontents.
      destruct more as [|d more]; [discriminate Htitles|].
      reflexivity.
Qed.

Lemma oracle_chunks_cover_to_document_end_witness :
  exists chunk_dicts,
    oracle_chunks_loop "A" four_lines [mkChunk 0; mkChunk 1] = Ok chunk_dicts
    /\ map cd_title chunk_dicts = map (fun _ => "A") [mkChunk 0; mkChunk 1]
    /\ String.concat "" (map cd_content chunk_dicts)
       = plain_text four_lines
           (range (chunk_start_index (mkChunk 0)) (len four_lines)).
Proof.
  apply (oracle_chunks_cover_to_document_end "A" four_lines (mkChunk 0)
           [mkChunk 1]).
  - repeat (apply Forall_cons; [cbn [chunk_start_index];
                                change (len four_lines) with 4; lia|]).
    apply Forall_nil.
  - intros [|[|i]] chunk next Hc Hn; cbn in Hc, Hn;
      try discriminate; inversion Hc; inversion Hn; subst;
      cbn [chunk_start_index]; lia.
Defined.
